(** * linux_thermaltake_riing: the lighting manager

    A shallow embedding of [daemon/lighting_manager/__init__.py]: the five
    lighting effects, the controller that scales an effect's colours by the
    brightness level, the manager that owns the devices and the polling loop
    body, and the effect factory.

    Python objects are records, the class hierarchy of effects is a sum of
    the five records with the three methods dispatched on the tag, and
    exceptions are the [Raise] case of an error monad.  Python's [float] is
    the kernel's binary64 [float]; Python's [int] is [Z]. *)

From Stdlib Require Import ZArith Floats Lia Bool.
From stdpp Require Import base option list gmap strings.

#[local] Open Scope Z_scope.

(** ** The Python values and arithmetic the module relies on *)

Module Py.

(** The built-in exceptions the code can raise. *)
Inductive exn : Set :=
| TypeError | ValueError | IndexError | KeyError
| AttributeError | ZeroDivisionError | OverflowError.

Inductive result (A : Type) : Type :=
| Ok (a : A)
| Raise (e : exn).
#[global] Arguments Ok {A} a.
#[global] Arguments Raise {A} e.

#[global] Instance result_ret : MRet result := λ A, @Ok A.
#[global] Instance result_bind : MBind result := λ A B k r,
  match r with Ok a => k a | Raise e => Raise e end.
#[global] Instance result_fmap : FMap result := λ A B f r,
  match r with Ok a => Ok (f a) | Raise e => Raise e end.

Definition raises {A} (r : result A) : Prop := ∃ e, r = Raise e.

(** A number is an [int] or a [float]; an int is read as a number where a
    number is expected. *)
Inductive num : Set :=
| Int (z : Z)
| Float (f : float).
#[global] Coercion Int : Z >-> num.

(** The values the factory is called with. *)
Inductive val : Set :=
| None_
| Num (n : num)
| Str (s : string)
| Seq (l : list num).

Definition Z2SF (z : Z) : spec_float :=
  match z with
  | Z0 => S754_zero false
  | Zpos p => S754_finite false p 0
  | Zneg p => S754_finite true p 0
  end.

(** [float(z)]: the nearest binary64 value, ties to even. *)
Definition float_of_int (z : Z) : result float :=
  match binary_normalize prec emax z 0 false with
  | S754_infinity _ => Raise OverflowError
  | sf => Ok (SF2Prim sf)
  end.

Definition as_float (x : num) : result float :=
  match x with
  | Int z => float_of_int z
  | Float f => Ok f
  end.

(** [x / y], true division: of two ints it is the correctly rounded
    quotient, otherwise the int operand is converted first. *)
Definition truediv (x y : num) : result num :=
  match x, y with
  | Int a, Int b =>
      if b =? 0 then Raise ZeroDivisionError
      else match SFdiv prec emax (Z2SF a) (Z2SF b) with
           | S754_infinity _ => Raise OverflowError
           | sf => Ok (Float (SF2Prim sf))
           end
  | _, _ =>
      fx ← as_float x; fy ← as_float y;
      if PrimFloat.eqb fy 0%float then Raise ZeroDivisionError
      else Ok (Float (fx / fy)%float)
  end.

Definition arith (fz : Z → Z → Z) (ff : float → float → float)
    (x y : num) : result num :=
  match x, y with
  | Int a, Int b => Ok (Int (fz a b))
  | _, _ => fx ← as_float x; fy ← as_float y; Ok (Float (ff fx fy))
  end.

Definition mul : num → num → result num := arith Z.mul PrimFloat.mul.
Definition add : num → num → result num := arith Z.add PrimFloat.add.
Definition sub : num → num → result num := arith Z.sub PrimFloat.sub.

(** The exact order between a float and an int ([None]: a NaN). *)
Definition SF_compare_Z (x : spec_float) (z : Z) : option comparison :=
  match x with
  | S754_zero _ => Some (0 ?= z)
  | S754_infinity false => Some Gt
  | S754_infinity true => Some Lt
  | S754_nan => None
  | S754_finite s m e =>
      let v := if s then Zneg m else Zpos m in
      if 0 <=? e then Some (v * 2 ^ e ?= z) else Some (v ?= z * 2 ^ (- e))
  end.

Definition compare (x y : num) : option comparison :=
  match x, y with
  | Int a, Int b => Some (a ?= b)
  | Float f, Int b => SF_compare_Z (Prim2SF f) b
  | Int a, Float g => CompOpp <$> SF_compare_Z (Prim2SF g) a
  | Float f, Float g =>
      match PrimFloat.compare f g with
      | FEq => Some Eq
      | FLt => Some Lt
      | FGt => Some Gt
      | FNotComparable => None
      end
  end.

Definition eq (x y : num) : bool :=
  match compare x y with Some Eq => true | _ => false end.
Definition lt (x y : num) : bool :=
  match compare x y with Some Lt => true | _ => false end.
Definition gt (x y : num) : bool :=
  match compare x y with Some Gt => true | _ => false end.
Definition le (x y : num) : bool :=
  match compare x y with Some Lt | Some Eq => true | _ => false end.

(** [int(x)]: truncation towards zero. *)
Definition int (x : num) : result Z :=
  match x with
  | Int z => Ok z
  | Float f =>
      match Prim2SF f with
      | S754_zero _ => Ok 0
      | S754_finite s m e =>
          let v := Z.shiftl (Zpos m) e in Ok (if s then - v else v)
      | S754_infinity _ => Raise OverflowError
      | S754_nan => Raise ValueError
      end
  end.

(** The float [f] is exactly the integer [z]. *)
Definition float_is (f : float) (z : Z) : bool :=
  match SF_compare_Z (Prim2SF f) z with Some Eq => true | _ => false end.

(** [l[i]] on a list, negative indices counting from the end. *)
Definition getitem {A} (l : list A) (i : Z) : result A :=
  let n := Z.of_nat (length l) in
  let j := if i <? 0 then i + n else i in
  if (0 <=? j) && (j <? n)
  then match l !! Z.to_nat j with Some x => Ok x | None => Raise IndexError end
  else Raise IndexError.

End Py.
Import Py.

(** ** Collaborators *)

(** A colour triple. *)
Definition rgb : Type := Z * Z * Z.

(** Modelled from the spec: [daemon.lighting_manager.utils.colours] is not
    among the sources.  [compass_to_rgb] is the hue function, a pure function
    from a compass angle to a colour triple; it is a parameter of everything
    that calls it. *)
Class Colours := compass_to_rgb : num → rgb.

(** One reading of [psutil.sensors_temperatures()], which maps a sensor name
    to its list of readings. *)
Record shwtemp : Set := {
  label : string;
  current : float;
  high : option float;
  critical : option float
}.

(** A device: its number of LEDs (the sink [set_lighting] is the list of
    frames the loop body returns). *)
Record Device : Set := { num_leds : Z }.

(** ** The effects *)

Module StaticLightingEffect.
Record t : Set := { r : Z; g : Z; b : Z }.

Definition init (r g b : Z) : t := {| r := r; g := g; b := b |}.

Definition next (self : t) : rgb := (g self, r self, b self).
End StaticLightingEffect.

Module AlternatingLightingEffect.
Record t : Set := {
  even_r : Z; even_g : Z; even_b : Z;
  odd_r : Z; odd_g : Z; odd_b : Z;
  odd : bool
}.

(** [a, b, c = matrix]: a sequence of another length cannot be unpacked. *)
Definition unpack3 (matrix : list Z) : result rgb :=
  match matrix with
  | [x; y; z] => Ok (x, y, z)
  | _ => Raise ValueError
  end.

Definition init (even_rgb_matrix odd_rgb_matrix : list Z) : result t :=
  '(er, eg, eb) ← unpack3 even_rgb_matrix;
  '(or, og, ob) ← unpack3 odd_rgb_matrix;
  Ok {| even_r := er; even_g := eg; even_b := eb;
        odd_r := or; odd_g := og; odd_b := ob; odd := true |}.

Definition set_odd (self : t) (v : bool) : t :=
  {| even_r := even_r self; even_g := even_g self; even_b := even_b self;
     odd_r := odd_r self; odd_g := odd_g self; odd_b := odd_b self;
     odd := v |}.

Definition next (self : t) : rgb * t :=
  if odd self
  then ((odd_g self, odd_r self, odd_b self), set_odd self false)
  else ((even_g self, even_r self, even_b self), set_odd self true).
End AlternatingLightingEffect.

Module RGBSpectrumLightingEffect.
Record t : Type := { num_iters : Z; compass_to_rgb_map : list rgb }.

Definition init `{Colours} : t :=
  {| num_iters := 0;
     compass_to_rgb_map := (λ ang, compass_to_rgb (Int ang)) <$> seqZ 0 360 |}.

Definition begin_dev (self : t) : t :=
  {| num_iters := 0; compass_to_rgb_map := compass_to_rgb_map self |}.

Definition next (self : t) : result (rgb * t) :=
  let self := {| num_iters := num_iters self + 1;
                 compass_to_rgb_map := compass_to_rgb_map self |} in
  step ← truediv (Int 360) (Int 12);
  pos ← mul step (Int (num_iters self));
  i ← int pos;
  c ← getitem (compass_to_rgb_map self) i;
  Ok (c, self).
End RGBSpectrumLightingEffect.

Module SpinningRGBSpectrumLightingEffect.
(** The subclass adds [rotation] to the fields of the RGB spectrum and
    inherits its [begin_dev]. *)
Record t : Type := {
  num_iters : Z;
  compass_to_rgb_map : list rgb;
  rotation : Z
}.

Definition init `{Colours} : t :=
  let super := RGBSpectrumLightingEffect.init in
  {| num_iters := RGBSpectrumLightingEffect.num_iters super;
     compass_to_rgb_map := RGBSpectrumLightingEffect.compass_to_rgb_map super;
     rotation := 0 |}.

Definition begin_dev (self : t) : t :=
  {| num_iters := 0; compass_to_rgb_map := compass_to_rgb_map self;
     rotation := rotation self |}.

Definition begin_all (self : t) : t :=
  let rot := if 11 <? rotation self then 0 else rotation self in
  {| num_iters := num_iters self;
     compass_to_rgb_map := compass_to_rgb_map self;
     rotation := rot + 1 |}.

(** [360/12*k] *)
Definition steps (k : Z) : result num :=
  step ← truediv (Int 360) (Int 12);
  mul step (Int k).

(** The angle [(360/12*num_iters) + 360/12*rotation]. *)
Definition angle (num_iters rotation : Z) : result num :=
  x ← steps num_iters;
  y ← steps rotation;
  add x y.

Definition next `{Colours} (self : t) : result (rgb * t) :=
  let self := {| num_iters := num_iters self + 1;
                 compass_to_rgb_map := compass_to_rgb_map self;
                 rotation := rotation self |} in
  a ← angle (num_iters self) (rotation self);
  Ok (compass_to_rgb a, self).
End SpinningRGBSpectrumLightingEffect.

Module TemperatureLightingEffect.
Record t : Set := {
  sensor_name : string;
  cur_temp : num;
  angle : num;
  cold : Z; target : Z; hot : Z;
  cold_angle : Z; target_angle : Z; hot_angle : Z
}.

Definition init (sensor_name : string) (hot target cold : Z) : t :=
  {| sensor_name := sensor_name; cur_temp := Int 0; angle := Int 0;
     cold := cold; target := target; hot := hot;
     cold_angle := 240; target_angle := 120; hot_angle := 0 |}.

Definition set_cur_temp (self : t) (v : num) : t :=
  {| sensor_name := sensor_name self; cur_temp := v; angle := angle self;
     cold := cold self; target := target self; hot := hot self;
     cold_angle := cold_angle self; target_angle := target_angle self;
     hot_angle := hot_angle self |}.

Definition set_angle (self : t) (v : num) : t :=
  {| sensor_name := sensor_name self; cur_temp := cur_temp self; angle := v;
     cold := cold self; target := target self; hot := hot self;
     cold_angle := cold_angle self; target_angle := target_angle self;
     hot_angle := hot_angle self |}.

(** [sensors_temperatures().get(self.sensor_name)[0].current]: [get] gives
    [None] for an unknown name, and subscripting [None] is a [TypeError]. *)
Definition read_current (sensors_temperatures : gmap string (list shwtemp))
    (name : string) : result num :=
  match sensors_temperatures !! name with
  | None => Raise TypeError
  | Some readings => first ← getitem readings 0; Ok (Float (current first))
  end.

(** The chain of comparisons has no final [else]: a reading that passes none
    of them (a NaN) leaves the angle as it was.  The [print] of the angle at
    the start is diagnostic output and is left out. *)
Definition begin_all (sensors_temperatures : gmap string (list shwtemp))
    (self : t) : result t :=
  cur ← read_current sensors_temperatures (sensor_name self);
  let self := set_cur_temp self cur in
  if le (cur_temp self) (Int (cold self)) then
    Ok (set_angle self (Int (cold_angle self)))
  else if lt (cur_temp self) (Int (target self)) then
    span ← sub (Int (cold_angle self)) (Int (target_angle self));
    width ← sub (Int (target self)) (Int (cold self));
    slope ← truediv span width;
    below ← sub (Int (target self)) (cur_temp self);
    a ← mul slope below;
    Ok (set_angle self a)
  else if eq (cur_temp self) (Int (target self)) then
    Ok (set_angle self (Int (target_angle self)))
  else if gt (cur_temp self) (Int (hot self)) then
    Ok (set_angle self (Int (hot_angle self)))
  else if gt (cur_temp self) (Int (target self)) then
    span ← sub (Int (target_angle self)) (Int (hot_angle self));
    width ← sub (Int (hot self)) (Int (target self));
    slope ← truediv span width;
    above ← sub (cur_temp self) (Int (target self));
    drop ← mul slope above;
    a ← sub (Int 120) drop;
    Ok (set_angle self a)
  else Ok self.

(** The same call together with the object it leaves behind, also when it
    raises: an assignment is made once its right-hand side has been evaluated,
    so the assignments before a failing expression stay and the failing one is
    not made. *)
Definition begin_all_state (sensors_temperatures : gmap string (list shwtemp))
    (self : t) : t * result unit :=
  match read_current sensors_temperatures (sensor_name self) with
  | Raise err => (self, Raise err)
  | Ok cur =>
      let self := set_cur_temp self cur in
      let assign_angle (value : result num) : t * result unit :=
        match value with
        | Ok a => (set_angle self a, Ok tt)
        | Raise err => (self, Raise err)
        end in
      if le (cur_temp self) (Int (cold self)) then
        assign_angle (Ok (Int (cold_angle self)))
      else if lt (cur_temp self) (Int (target self)) then
        assign_angle
          (span ← sub (Int (cold_angle self)) (Int (target_angle self));
           width ← sub (Int (target self)) (Int (cold self));
           slope ← truediv span width;
           below ← sub (Int (target self)) (cur_temp self);
           mul slope below)
      else if eq (cur_temp self) (Int (target self)) then
        assign_angle (Ok (Int (target_angle self)))
      else if gt (cur_temp self) (Int (hot self)) then
        assign_angle (Ok (Int (hot_angle self)))
      else if gt (cur_temp self) (Int (target self)) then
        assign_angle
          (span ← sub (Int (target_angle self)) (Int (hot_angle self));
           width ← sub (Int (hot self)) (Int (target self));
           slope ← truediv span width;
           above ← sub (cur_temp self) (Int (target self));
           drop ← mul slope above;
           sub (Int 120) drop)
      else (self, Ok tt)
  end.

Definition next `{Colours} (self : t) : rgb := compass_to_rgb (angle self).
End TemperatureLightingEffect.

(** The class hierarchy: an effect is one of the five, and the three methods
    dispatch on it; [begin_dev] and [begin_all] of the base class do
    nothing. *)
Inductive LightingEffect : Type :=
| Static (e : StaticLightingEffect.t)
| Alternating (e : AlternatingLightingEffect.t)
| RGBSpectrum (e : RGBSpectrumLightingEffect.t)
| SpinningRGBSpectrum (e : SpinningRGBSpectrumLightingEffect.t)
| Temperature (e : TemperatureLightingEffect.t).

Definition begin_dev (self : LightingEffect) : LightingEffect :=
  match self with
  | RGBSpectrum e => RGBSpectrum (RGBSpectrumLightingEffect.begin_dev e)
  | SpinningRGBSpectrum e =>
      SpinningRGBSpectrum (SpinningRGBSpectrumLightingEffect.begin_dev e)
  | _ => self
  end.

Definition begin_all (sensors_temperatures : gmap string (list shwtemp))
    (self : LightingEffect) : result LightingEffect :=
  match self with
  | SpinningRGBSpectrum e =>
      Ok (SpinningRGBSpectrum (SpinningRGBSpectrumLightingEffect.begin_all e))
  | Temperature e =>
      Temperature <$> TemperatureLightingEffect.begin_all sensors_temperatures e
  | _ => Ok self
  end.

Definition next `{Colours} (self : LightingEffect)
    : result (rgb * LightingEffect) :=
  match self with
  | Static e => Ok (StaticLightingEffect.next e, self)
  | Alternating e =>
      let '(c, e') := AlternatingLightingEffect.next e in Ok (c, Alternating e')
  | RGBSpectrum e =>
      '(c, e') ← RGBSpectrumLightingEffect.next e; Ok (c, RGBSpectrum e')
  | SpinningRGBSpectrum e =>
      '(c, e') ← SpinningRGBSpectrumLightingEffect.next e;
      Ok (c, SpinningRGBSpectrum e')
  | Temperature e => Ok (TemperatureLightingEffect.next e, self)
  end.


(** ** The controller *)

Module LightingController.
Record t : Type := {
  lighting_effect : LightingEffect;
  brightness_level : Z;
  update_msec : Z
}.

Definition init (lighting_effect : LightingEffect) : t :=
  {| lighting_effect := lighting_effect;
     brightness_level := 100; update_msec := 100 |}.

Definition set_lighting_effect (self : t) (e : LightingEffect) : t :=
  {| lighting_effect := e; brightness_level := brightness_level self;
     update_msec := update_msec self |}.

Definition set_brightness_level (self : t) (v : Z) : t :=
  {| lighting_effect := lighting_effect self; brightness_level := v;
     update_msec := update_msec self |}.

Definition set_update_msec (self : t) (v : Z) : t :=
  {| lighting_effect := lighting_effect self;
     brightness_level := brightness_level self; update_msec := v |}.

(** [int(i/100*self.brightness_level)] *)
Definition scale (brightness_level i : Z) : result Z :=
  q ← truediv (Int i) (Int 100);
  p ← mul q (Int brightness_level);
  int p.

Definition _brightness_processor (self : t) (c : rgb) : result (list Z) :=
  if brightness_level self =? 0 then Ok [0; 0; 0]
  else let '(x, y, z) := c in mapM (scale (brightness_level self)) [x; y; z].

(** The body of [for i in range(n)], [n] times. *)
Fixpoint main_for `{Colours} (n : nat) (self : t) (data : list Z)
    : result (list Z * t) :=
  match n with
  | O => Ok (data, self)
  | S n' =>
      '(c, e) ← next (lighting_effect self);
      let self := set_lighting_effect self e in
      px ← _brightness_processor self c;
      main_for n' self (data ++ px)
  end.

Definition main `{Colours} (self : t) (device : Device)
    : result (list Z * Z * t) :=
  let self := set_lighting_effect self (begin_dev (lighting_effect self)) in
  '(data, self) ← main_for (Z.to_nat (num_leds device)) self [];
  Ok (data, update_msec self, self).
End LightingController.

(** ** The manager *)

Module LightingManager.
(** The worker thread itself is not part of the state: the loop body below
    is what it runs while [_continue] holds. *)
Record t : Type := {
  _continue : bool;
  _devices : list Device;
  _controller : option LightingController.t
}.

Definition init (initial_controller : option LightingController.t) : t :=
  {| _continue := false; _devices := [];
     _controller := initial_controller |}.

Definition with_controller (self : t) (c : option LightingController.t) : t :=
  {| _continue := _continue self; _devices := _devices self;
     _controller := c |}.

Definition attach_device (self : t) (device : Device) : t :=
  {| _continue := _continue self; _devices := _devices self ++ [device];
     _controller := _controller self |}.

(** [None] stands for an argument that is not a [LightingController]. *)
Definition set_controller (self : t) (controller : option LightingController.t)
    : t :=
  match controller with
  | Some c => with_controller self (Some c)
  | None => self
  end.

(** Attribute access on the controller, which may be [None]. *)
Definition the_controller (self : t) : result LightingController.t :=
  match _controller self with
  | Some c => Ok c
  | None => Raise AttributeError
  end.

(** The parameters of the two setters are annotated as ints; Python does not
    check an annotation, so the argument is any number, and what is stored is
    [int(...)] of it.  The right-hand side of the assignment is evaluated
    before the attribute of the controller is reached. *)
Definition set_brightness (self : t) (brightness : num) : result t :=
  let brightness :=
    if lt brightness (Int 0) then Int 0
    else if gt brightness (Int 300) then Int 300
    else brightness in
  level ← int brightness;
  c ← the_controller self;
  Ok (with_controller self
        (Some (LightingController.set_brightness_level c level))).

Definition set_light_update_msec (self : t) (sec : num) : result t :=
  if gt sec (Int 0) then
    msec ← int sec;
    c ← the_controller self;
    Ok (with_controller self (Some (LightingController.set_update_msec c msec)))
  else Ok self.

(** What the worker has done when it stops or fails: the frames handed to
    the devices' [set_lighting], in order, and how it ended.  A frame that was
    handed over stays handed over when a later call raises. *)
Definition run (A : Type) : Type := list (Device * list Z) * result A.

(** [for dev in self._devices]: each frame is built and handed to the device;
    the interval is the one returned for the last device. *)
Fixpoint for_devices `{Colours} (devices : list Device) (self : t)
    (next_poll_msec : Z) : run (t * Z) :=
  match devices with
  | [] => ([], Ok (self, next_poll_msec))
  | dev :: devices' =>
      match c ← the_controller self; LightingController.main c dev with
      | Raise e => ([], Raise e)
      | Ok (data, msec, c') =>
          let '(sent, r) :=
            for_devices devices' (with_controller self (Some c')) msec in
          ((dev, data) :: sent, r)
      end
  end.

(** One iteration of [while self._continue]; the interval returned is the
    one the loop then sleeps for. *)
Definition _main_loop_body `{Colours}
    (sensors_temperatures : gmap string (list shwtemp))
    (self : t) (next_poll_msec : Z) : run (t * Z) :=
  match c ← the_controller self;
        e ← begin_all sensors_temperatures
              (LightingController.lighting_effect c);
        Ok (LightingController.set_lighting_effect c e) with
  | Raise e => ([], Raise e)
  | Ok c => for_devices (_devices self) (with_controller self (Some c))
              next_poll_msec
  end.

(** The loop, run for as many rounds as there are sensor snapshots while the
    flag stays set; it starts with [next_poll_msec = 1]. *)
Fixpoint _main_loop_rounds `{Colours}
    (rounds : list (gmap string (list shwtemp))) (self : t)
    (next_poll_msec : Z) : run (t * Z) :=
  match rounds with
  | [] => ([], Ok (self, next_poll_msec))
  | sensors_temperatures :: rounds' =>
      if _continue self then
        match _main_loop_body sensors_temperatures self next_poll_msec with
        | (sent, Raise e) => (sent, Raise e)
        | (sent, Ok (self', msec)) =>
            let '(sent', r) := _main_loop_rounds rounds' self' msec in
            (sent ++ sent', r)
        end
      else ([], Ok (self, next_poll_msec))
  end.

Definition _main_loop `{Colours}
    (rounds : list (gmap string (list shwtemp))) (self : t) : run (t * Z) :=
  _main_loop_rounds rounds self 1.

Definition start (self : t) : t :=
  {| _continue := true; _devices := _devices self;
     _controller := _controller self |}.

Definition stop (self : t) : t :=
  {| _continue := false; _devices := _devices self;
     _controller := _controller self |}.
End LightingManager.

(** ** The factory *)

(** Binding the arguments of a call to the parameters of a constructor:
    positional arguments first, then keywords, then defaults; a parameter given
    twice or not at all, and an argument without a parameter, are a
    [TypeError]. *)
Fixpoint bind_params (params : list (string * option val)) (args : list val)
    (kwargs : gmap string val) : result (list val) :=
  match params with
  | [] =>
      match args with
      | [] => if decide (size kwargs = 0%nat) then Ok [] else Raise TypeError
      | _ :: _ => Raise TypeError
      end
  | (name, default) :: params' =>
      match args with
      | a :: args' =>
          match kwargs !! name with
          | Some _ => Raise TypeError
          | None => vs ← bind_params params' args' kwargs; Ok (a :: vs)
          end
      | [] =>
          match kwargs !! name, default with
          | Some v, _ | None, Some v =>
              vs ← bind_params params' [] (delete name kwargs); Ok (v :: vs)
          | None, None => Raise TypeError
          end
      end
  end.

(** [a, b, c = matrix]: a list of three numbers and a str of three characters
    unpack into their items; another length is a [ValueError], and a value
    that cannot be iterated over a [TypeError]. *)
Definition unpack3 (matrix : val) : result (val * val * val) :=
  match matrix with
  | Seq [x; y; z] => Ok (Num x, Num y, Num z)
  | Str (String x (String y (String z EmptyString))) =>
      Ok (Str (String x EmptyString), Str (String y EmptyString),
          Str (String z EmptyString))
  | Seq _ | Str _ => Raise ValueError
  | Num _ | None_ => Raise TypeError
  end.

(** The records of the effects hold values of the annotated types: [int]
    channels and thresholds, a [str] sensor name.  The constructors store a
    value of another type all the same (they are embedded with the values as
    they come in [Stored] below); a record cannot hold it, and the
    constructors over the records refuse it. *)
Definition as_int (v : val) : result Z :=
  match v with Num (Int z) => Ok z | _ => Raise TypeError end.

Definition as_str (v : val) : result string :=
  match v with Str s => Ok s | _ => Raise TypeError end.

Definition new_static (args : list val) (kwargs : gmap string val)
    : result LightingEffect :=
  vs ← bind_params [("r", None); ("g", None); ("b", None)] args kwargs;
  match vs with
  | [r; g; b] =>
      r ← as_int r; g ← as_int g; b ← as_int b;
      Ok (Static (StaticLightingEffect.init r g b))
  | _ => Raise TypeError
  end.

Definition new_alternating (args : list val) (kwargs : gmap string val)
    : result LightingEffect :=
  vs ← bind_params [("even_rgb_matrix", None); ("odd_rgb_matrix", None)]
         args kwargs;
  match vs with
  | [even_rgb_matrix; odd_rgb_matrix] =>
      '(er, eg, eb) ← unpack3 even_rgb_matrix;
      '(or, og, ob) ← unpack3 odd_rgb_matrix;
      er ← as_int er; eg ← as_int eg; eb ← as_int eb;
      or ← as_int or; og ← as_int og; ob ← as_int ob;
      Alternating <$> AlternatingLightingEffect.init [er; eg; eb] [or; og; ob]
  | _ => Raise TypeError
  end.

Definition new_temperature (args : list val) (kwargs : gmap string val)
    : result LightingEffect :=
  vs ← bind_params [("sensor_name", None); ("hot", Some (Num (Int 60)));
                    ("target", Some (Num (Int 30)));
                    ("cold", Some (Num (Int 20)))] args kwargs;
  match vs with
  | [name; hot; target; cold] =>
      name ← as_str name; hot ← as_int hot; target ← as_int target;
      cold ← as_int cold;
      Ok (Temperature (TemperatureLightingEffect.init name hot target cold))
  | _ => Raise TypeError
  end.

(** [_type == s] *)
Definition is_str (v : val) (s : string) : bool :=
  match v with Str s' => bool_decide (s' = s) | _ => false end.

(** The five effect kinds the factory knows. *)
Definition recognized (_type : val) : bool :=
  is_str _type "static" || is_str _type "alternating"
  || is_str _type "rgb_spectrum" || is_str _type "spinning_rgb_spectrum"
  || is_str _type "temperature".

(** [kwargs.pop('type')], or [args.pop(0)] when there are positional
    arguments. *)
Definition pop_type (args : list val) (kwargs : gmap string val)
    : result (val * list val * gmap string val) :=
  match args with
  | [] =>
      match kwargs !! "type" with
      | Some v => Ok (v, [], delete "type" kwargs)
      | None => Raise KeyError
      end
  | v :: args' => Ok (v, args', kwargs)
  end.

(** [effect = None], then the chain of comparisons that assigns it. *)
Definition new_effect `{Colours} (_type : val) (args : list val)
    (kwargs : gmap string val) : result (option LightingEffect) :=
  if is_str _type "static" then Some <$> new_static args kwargs
  else if is_str _type "alternating" then Some <$> new_alternating args kwargs
  else if is_str _type "rgb_spectrum" then
    Ok (Some (RGBSpectrum RGBSpectrumLightingEffect.init))
  else if is_str _type "spinning_rgb_spectrum" then
    Ok (Some (SpinningRGBSpectrum SpinningRGBSpectrumLightingEffect.init))
  else if is_str _type "temperature" then Some <$> new_temperature args kwargs
  else Ok None.

(** The result is [None] (the function ends without a [return]) when no
    effect was assigned. *)
Definition lighting_controller_factory `{Colours} (args : list val)
    (kwargs : gmap string val) : result (option LightingController.t) :=
  '(_type, args, kwargs) ← pop_type args kwargs;
  match new_effect _type args kwargs with
  | Ok effect => Ok (LightingController.init <$> effect)
  | Raise e => Raise e
  end.

(** ** The factory on unchecked values *)

(** The constructors do not look at the values they are given: whatever is
    bound to a parameter is stored as it comes.  [Stored] has the effects as
    the constructors leave them and the factory over them; the records of the
    effects above are the stored effects whose values have the annotated
    types. *)
Module Stored.
(** The two spectra take no parameter, so their records are the ones above;
    the temperature effect stores its four parameters next to the constants of
    [TemperatureLightingEffect.init]. *)
Inductive LightingEffect : Type :=
| Static (r g b : val)
| Alternating (even_r even_g even_b odd_r odd_g odd_b : val) (odd : bool)
| RGBSpectrum (e : RGBSpectrumLightingEffect.t)
| SpinningRGBSpectrum (e : SpinningRGBSpectrumLightingEffect.t)
| Temperature (sensor_name hot target cold : val).

Record LightingController : Type := {
  lighting_effect : LightingEffect;
  brightness_level : Z;
  update_msec : Z
}.

Definition init (lighting_effect : LightingEffect) : LightingController :=
  {| lighting_effect := lighting_effect;
     brightness_level := 100; update_msec := 100 |}.

(** The parameters of the three constructors that have some. *)
Definition static_params : list (string * option val) :=
  [("r", None); ("g", None); ("b", None)].

Definition alternating_params : list (string * option val) :=
  [("even_rgb_matrix", None); ("odd_rgb_matrix", None)].

Definition temperature_params : list (string * option val) :=
  [("sensor_name", None); ("hot", Some (Num (Int 60)));
   ("target", Some (Num (Int 30))); ("cold", Some (Num (Int 20)))].

Definition new_static (args : list val) (kwargs : gmap string val)
    : result LightingEffect :=
  vs ← bind_params static_params args kwargs;
  match vs with
  | [r; g; b] => Ok (Static r g b)
  | _ => Raise TypeError
  end.

Definition new_alternating (args : list val) (kwargs : gmap string val)
    : result LightingEffect :=
  vs ← bind_params alternating_params args kwargs;
  match vs with
  | [even_rgb_matrix; odd_rgb_matrix] =>
      '(er, eg, eb) ← unpack3 even_rgb_matrix;
      '(or, og, ob) ← unpack3 odd_rgb_matrix;
      Ok (Alternating er eg eb or og ob true)
  | _ => Raise TypeError
  end.

Definition new_temperature (args : list val) (kwargs : gmap string val)
    : result LightingEffect :=
  vs ← bind_params temperature_params args kwargs;
  match vs with
  | [sensor_name; hot; target; cold] =>
      Ok (Temperature sensor_name hot target cold)
  | _ => Raise TypeError
  end.

(** [effect = None], then the chain of comparisons that assigns it. *)
Definition new_effect `{Colours} (_type : val) (args : list val)
    (kwargs : gmap string val) : result (option LightingEffect) :=
  if is_str _type "static" then Some <$> new_static args kwargs
  else if is_str _type "alternating" then Some <$> new_alternating args kwargs
  else if is_str _type "rgb_spectrum" then
    Ok (Some (RGBSpectrum RGBSpectrumLightingEffect.init))
  else if is_str _type "spinning_rgb_spectrum" then
    Ok (Some (SpinningRGBSpectrum SpinningRGBSpectrumLightingEffect.init))
  else if is_str _type "temperature" then Some <$> new_temperature args kwargs
  else Ok None.

Definition lighting_controller_factory `{Colours} (args : list val)
    (kwargs : gmap string val) : result (option LightingController) :=
  '(_type, args, kwargs) ← pop_type args kwargs;
  match new_effect _type args kwargs with
  | Ok effect => Ok (init <$> effect)
  | Raise e => Raise e
  end.
End Stored.

(** A stored value at its annotated type. *)
Definition val_int (v : val) : option Z :=
  match v with Num (Int z) => Some z | _ => None end.

Definition val_str (v : val) : option string :=
  match v with Str s => Some s | _ => None end.

(** The stored effect as one of the records above, when its values have the
    annotated types. *)
Definition typed_effect (o : Stored.LightingEffect) : option LightingEffect :=
  match o with
  | Stored.Static r g b =>
      r ← val_int r; g ← val_int g; b ← val_int b;
      Some (Static (StaticLightingEffect.init r g b))
  | Stored.Alternating er eg eb or og ob odd =>
      er ← val_int er; eg ← val_int eg; eb ← val_int eb;
      or ← val_int or; og ← val_int og; ob ← val_int ob;
      Some (Alternating
              {| AlternatingLightingEffect.even_r := er;
                 AlternatingLightingEffect.even_g := eg;
                 AlternatingLightingEffect.even_b := eb;
                 AlternatingLightingEffect.odd_r := or;
                 AlternatingLightingEffect.odd_g := og;
                 AlternatingLightingEffect.odd_b := ob;
                 AlternatingLightingEffect.odd := odd |})
  | Stored.RGBSpectrum e => Some (RGBSpectrum e)
  | Stored.SpinningRGBSpectrum e => Some (SpinningRGBSpectrum e)
  | Stored.Temperature sensor_name hot target cold =>
      sensor_name ← val_str sensor_name; hot ← val_int hot;
      target ← val_int target; cold ← val_int cold;
      Some (Temperature
              (TemperatureLightingEffect.init sensor_name hot target cold))
  end.

Definition typed_controller (o : Stored.LightingController)
    : option LightingController.t :=
  e ← typed_effect (Stored.lighting_effect o);
  Some {| LightingController.lighting_effect := e;
          LightingController.brightness_level := Stored.brightness_level o;
          LightingController.update_msec := Stored.update_msec o |}.

(** The call binds to the parameters of a constructor. *)
Definition binds (params : list (string * option val)) (args : list val)
    (kwargs : gmap string val) : bool :=
  match bind_params params args kwargs with Ok _ => true | Raise _ => false end.

(** A value of three items: a list of three numbers or a str of three
    characters. *)
Definition three_items (v : val) : bool :=
  match v with
  | Seq l => bool_decide (length l = 3%nat)
  | Str s => bool_decide (String.length s = 3%nat)
  | Num _ | None_ => false
  end.

(** The constructor of the kind [_type] accepts the remaining parameters: the
    two spectra are built without them; the static and the temperature effect
    need a call that binds to their parameters; the alternating effect needs
    one that binds two values of three items each. *)
Definition accepted (_type : val) (args : list val) (kwargs : gmap string val)
    : bool :=
  if is_str _type "static" then binds Stored.static_params args kwargs
  else if is_str _type "alternating" then
    match bind_params Stored.alternating_params args kwargs with
    | Ok [even_rgb_matrix; odd_rgb_matrix] =>
        three_items even_rgb_matrix && three_items odd_rgb_matrix
    | _ => false
    end
  else if is_str _type "rgb_spectrum" then true
  else if is_str _type "spinning_rgb_spectrum" then true
  else if is_str _type "temperature" then
    binds Stored.temperature_params args kwargs
  else false.

(** ** Sequences of calls *)

(** The three methods of an effect, as the controller and the manager call
    them. *)
Inductive call : Set := BeginDev | BeginAll | Next.

(** The colours returned by the [next()] calls of a sequence of calls, in
    order, and the effect afterwards. *)
Fixpoint run_calls `{Colours} (sensors_temperatures : gmap string (list shwtemp))
    (calls : list call) (e : LightingEffect)
    : result (list rgb * LightingEffect) :=
  match calls with
  | [] => Ok ([], e)
  | BeginDev :: calls' => run_calls sensors_temperatures calls' (begin_dev e)
  | BeginAll :: calls' =>
      e' ← begin_all sensors_temperatures e;
      run_calls sensors_temperatures calls' e'
  | Next :: calls' =>
      '(c, e') ← next e;
      '(out, e'') ← run_calls sensors_temperatures calls' e';
      Ok (c :: out, e'')
  end.

Fixpoint count_next (calls : list call) : nat :=
  match calls with
  | [] => 0
  | Next :: calls' => S (count_next calls')
  | _ :: calls' => count_next calls'
  end.

(** [n] colours, [first] and [second] in turn. *)
Fixpoint alternate (n : nat) (first second : rgb) : list rgb :=
  match n with
  | O => []
  | S n' => first :: alternate n' second first
  end.

(** The two setters of the manager. *)
Inductive setter : Set :=
| SetBrightness (brightness : num)
| SetLightUpdateMsec (sec : num).

Definition call_setter (m : LightingManager.t) (s : setter)
    : result LightingManager.t :=
  match s with
  | SetBrightness brightness => LightingManager.set_brightness m brightness
  | SetLightUpdateMsec sec => LightingManager.set_light_update_msec m sec
  end.

Fixpoint run_setters (calls : list setter) (m : LightingManager.t)
    : result LightingManager.t :=
  match calls with
  | [] => Ok m
  | s :: calls' => m' ← call_setter m s; run_setters calls' m'
  end.

(** A channel value of 8 bits, and a colour of three of them. *)
Definition channel (v : Z) : Prop := 0 ≤ v ≤ 255.

Definition colour (c : rgb) : Prop :=
  channel c.1.1 ∧ channel c.1.2 ∧ channel c.2.

(** The hue function returns 8-bit colours. *)
Definition hue_colours `{Colours} : Prop := ∀ a, colour (compass_to_rgb a).

(** The colours an effect holds are 8-bit colours. *)
Definition effect_colours (e : LightingEffect) : Prop :=
  match e with
  | Static s => colour (StaticLightingEffect.next s)
  | Alternating a =>
      colour (AlternatingLightingEffect.odd_g a,
              AlternatingLightingEffect.odd_r a,
              AlternatingLightingEffect.odd_b a)
      ∧ colour (AlternatingLightingEffect.even_g a,
                AlternatingLightingEffect.even_r a,
                AlternatingLightingEffect.even_b a)
  | RGBSpectrum s =>
      Forall colour (RGBSpectrumLightingEffect.compass_to_rgb_map s)
  | SpinningRGBSpectrum _ | Temperature _ => True
  end.

(** What a device can be handed at brightness [b]: a value up to 765, and up
    to 255 when the brightness is at most 100. *)
Definition sink_value (b v : Z) : Prop := 0 ≤ v ≤ 765 ∧ (b ≤ 100 → v ≤ 255).

Definition frames_ok (b : Z) (sent : list (Device * list Z)) : Prop :=
  Forall (λ frame, Forall (sink_value b) frame.2) sent.

(** Brightness [b] changes the channel value [i]. *)
Definition scale_changes (b i : Z) : bool :=
  match LightingController.scale b i with
  | Ok v => negb (v =? i)
  | Raise _ => true
  end.

(** A controller at brightness [b] whose effect holds 8-bit colours, and a
    manager that has one. *)
Definition ctrl_ok (b : Z) (c : LightingController.t) : Prop :=
  LightingController.brightness_level c = b
  ∧ effect_colours (LightingController.lighting_effect c).

Definition manager_ok (b : Z) (m : LightingManager.t) : Prop :=
  ∃ c, LightingManager._controller m = Some c ∧ ctrl_ok b c.

(** The check that [int(q * level)], for the quotient [q] of [i/100] and the
    brightness [b] as the float [level], is floor(i*b/100) or one less, and
    not negative. *)
Definition scale_cell (q level : float) (i b : Z) : bool :=
  match int (Float (q * level)) with
  | Ok v => (0 <=? v) && ((v =? i * b / 100) || (v =? i * b / 100 - 1))
  | Raise _ => false
  end.

Definition scale_row (levels : list (Z * float)) (i : Z) : bool :=
  match truediv (Int i) (Int 100) with
  | Ok (Float q) =>
      forallb (λ level : Z * float, scale_cell q level.2 i level.1) levels
  | _ => false
  end.

(** The check for the channel values [channels] and the brightness levels
    [brightnesses]. *)
Definition scale_check (brightnesses channels : list Z) : bool :=
  match mapM (λ b, level ← float_of_int b; Ok (b, level)) brightnesses with
  | Ok levels => forallb (scale_row levels) channels
  | Raise _ => false
  end.

(** The check that the angle of the spinning spectrum is exactly
    [30*n + 30*r], for the counters [n] of [counters] and the rotations [r] of
    [rotations]. *)
Definition spin_row (turns : list (Z * num)) (n : Z) : bool :=
  match SpinningRGBSpectrumLightingEffect.steps n with
  | Ok x =>
      forallb (λ turn : Z * num,
                 match add x turn.2 with
                 | Ok (Float f) => float_is f (30 * n + 30 * turn.1)
                 | _ => false
                 end) turns
  | Raise _ => false
  end.

Definition spin_check (rotations counters : list Z) : bool :=
  match mapM (λ r, y ← SpinningRGBSpectrumLightingEffect.steps r; Ok (r, y))
          rotations with
  | Ok turns => forallb (spin_row turns) counters
  | Raise _ => false
  end.

(** The invariant of the settings. *)
Definition settings_ok (c : LightingController.t) : Prop :=
  0 ≤ LightingController.brightness_level c ≤ 300
  ∧ 0 < LightingController.update_msec c.

(** The colours of a freshly built alternating effect, as [next()] returns
    them. *)
Definition odd_colour (a : AlternatingLightingEffect.t) : rgb :=
  (AlternatingLightingEffect.odd_g a, AlternatingLightingEffect.odd_r a,
   AlternatingLightingEffect.odd_b a).

Definition even_colour (a : AlternatingLightingEffect.t) : rgb :=
  (AlternatingLightingEffect.even_g a, AlternatingLightingEffect.even_r a,
   AlternatingLightingEffect.even_b a).

(** A sensor snapshot with one reading for one sensor. *)
Definition one_sensor (name : string) (temperature : float)
    : gmap string (list shwtemp) :=
  {[ name := [ {| label := ""; current := temperature;
                  high := None; critical := None |} ] ]}.

(** The temperature effect with the default thresholds. *)
Definition default_temperature : TemperatureLightingEffect.t :=
  TemperatureLightingEffect.init "cpu" 60 30 20.

(** A hue function to run examples with. *)
Definition black : Colours := λ _, (0, 0, 0).

(** The spinning spectrum after [k] rounds. *)
Definition spin_rounds `{Colours} (k : nat)
    : SpinningRGBSpectrumLightingEffect.t :=
  Nat.iter k SpinningRGBSpectrumLightingEffect.begin_all
    SpinningRGBSpectrumLightingEffect.init.

(** A manager with one controller and its devices, started. *)
Definition running (c : LightingController.t) (devices : list Device)
    : LightingManager.t :=
  LightingManager.start
    (foldl LightingManager.attach_device
       (LightingManager.init (Some c)) devices).

(** The same manager before it is started. *)
Definition configured (c : LightingController.t) (devices : list Device)
    : LightingManager.t :=
  foldl LightingManager.attach_device (LightingManager.init (Some c)) devices.

(** A manager of one device of one LED showing the colour (100, 100, 100),
    and the same manager once the brightness is 300. *)
Definition grey_manager : LightingManager.t :=
  running
    (LightingController.init (Static (StaticLightingEffect.init 100 100 100)))
    [{| num_leds := 1 |}].

Definition overdriven_manager : LightingManager.t :=
  LightingManager.with_controller grey_manager
    (Some (LightingController.set_brightness_level
             (LightingController.init
                (Static (StaticLightingEffect.init 100 100 100))) 300)).

(** The effects whose [next()] cannot raise: all but the two spectra. *)
Definition steady (e : LightingEffect) : Prop :=
  match e with
  | Static _ | Alternating _ | Temperature _ => True
  | RGBSpectrum _ | SpinningRGBSpectrum _ => False
  end.

(** A reading with the given current temperature. *)
Definition reading (temperature : float) : shwtemp :=
  {| label := ""; current := temperature; high := None; critical := None |}.

(** The check that [int(30.0 * k)] is [30 * k]. *)
Definition index_check (k : Z) : bool :=
  match mul (Float 30) (Int k) ≫= int with
  | Ok v => v =? 30 * k
  | Raise _ => false
  end.

(** An RGB spectrum at a given counter, with the table as constructed. *)
Definition spectrum_at `{Colours} (k : Z) : RGBSpectrumLightingEffect.t :=
  {| RGBSpectrumLightingEffect.num_iters := k;
     RGBSpectrumLightingEffect.compass_to_rgb_map :=
       RGBSpectrumLightingEffect.compass_to_rgb_map
         RGBSpectrumLightingEffect.init |}.

(** A spinning spectrum at a given counter and rotation. *)
Definition spinning_at (table : list rgb) (k rot : Z)
    : SpinningRGBSpectrumLightingEffect.t :=
  {| SpinningRGBSpectrumLightingEffect.num_iters := k;
     SpinningRGBSpectrumLightingEffect.compass_to_rgb_map := table;
     SpinningRGBSpectrumLightingEffect.rotation := rot |}.

(** The colour [c] is the hue of a float that is exactly the angle
    [30*j + 30*rot]. *)
Definition hue_of_steps `{Colours} (rot : Z) (c : rgb) (j : Z) : Prop :=
  ∃ f, c = compass_to_rgb (Float f) ∧ float_is f (30 * j + 30 * rot) = true.

(** A frame for the device [dev]: addressed to it, 3 values per LED, each a
    value the brightness [b] allows. *)
Definition frame_for (b : Z) (frame : Device * list Z) (dev : Device) : Prop :=
  frame.1 = dev
  ∧ length frame.2 = (3 * Z.to_nat (num_leds dev))%nat
  ∧ Forall (sink_value b) frame.2.

(** The calls that configure a manager. *)
Inductive config : Type :=
| AttachDevice (device : Device)
| SetController (controller : option LightingController.t)
| CallSetter (s : setter).

Definition call_config (m : LightingManager.t) (op : config)
    : result LightingManager.t :=
  match op with
  | AttachDevice device => Ok (LightingManager.attach_device m device)
  | SetController controller =>
      Ok (LightingManager.set_controller m controller)
  | CallSetter s => call_setter m s
  end.

Fixpoint run_config (ops : list config) (m : LightingManager.t)
    : result LightingManager.t :=
  match ops with
  | [] => Ok m
  | op :: ops' => m' ← call_config m op; run_config ops' m'
  end.

(** The settings a manager holds after a call, read from its controller. *)
Definition stored_brightness (r : result LightingManager.t) : option Z :=
  match r with
  | Ok m =>
      LightingController.brightness_level <$> LightingManager._controller m
  | Raise _ => None
  end.

Definition stored_interval (r : result LightingManager.t) : option Z :=
  match r with
  | Ok m => LightingController.update_msec <$> LightingManager._controller m
  | Raise _ => None
  end.

(** A call of a setter with an int, as the parameter is annotated. *)
Definition int_argument (s : setter) : Prop :=
  match s with
  | SetBrightness (Int _) | SetLightUpdateMsec (Int _) => True
  | _ => False
  end.

(** A new manager whose controller is at its defaults. *)
Definition default_manager : LightingManager.t :=
  LightingManager.init
    (Some (LightingController.init (Static (StaticLightingEffect.init 0 0 0)))).

(** * Properties *)

(** ** The manager's settings *)

Lemma the_controller_Some (m : LightingManager.t) c :
  LightingManager.the_controller (LightingManager.with_controller m (Some c))
  = Ok c.
Proof. reflexivity. Qed.

Lemma lt_Int (a b : Z) : lt (Int a) (Int b) = (a <? b).
Proof. unfold lt, Z.ltb. simpl. by destruct (a ?= b). Qed.

Lemma gt_Int (a b : Z) : gt (Int a) (Int b) = (b <? a).
Proof.
  unfold gt, Z.ltb. simpl. rewrite (Z.compare_antisym a b).
  by destruct (a ?= b).
Qed.

Lemma set_brightness_clamps (m : LightingManager.t) c (brightness : Z) :
  LightingManager.set_brightness
    (LightingManager.with_controller m (Some c)) brightness
  = Ok (LightingManager.with_controller m
          (Some (LightingController.set_brightness_level c
                   (Z.max 0 (Z.min 300 brightness))))).
Proof.
  unfold LightingManager.set_brightness. rewrite lt_Int, gt_Int.
  replace (Z.max 0 (Z.min 300 brightness))
    with (if brightness <? 0 then 0
          else if 300 <? brightness then 300 else brightness).
  - by destruct (brightness <? 0), (300 <? brightness).
  - destruct (Z.ltb_spec brightness 0); [lia|].
    destruct (Z.ltb_spec 300 brightness); lia.
Qed.

Lemma set_light_update_msec_positive (m : LightingManager.t) c (sec : Z) :
  LightingManager.set_light_update_msec
    (LightingManager.with_controller m (Some c)) sec
  = Ok (LightingManager.with_controller m
          (Some (if 0 <? sec then LightingController.set_update_msec c sec
                 else c))).
Proof.
  unfold LightingManager.set_light_update_msec. rewrite gt_Int.
  destruct (0 <? sec); reflexivity.
Qed.

Lemma call_setter_ok (m : LightingManager.t) c s :
  int_argument s → settings_ok c →
  ∃ c', call_setter (LightingManager.with_controller m (Some c)) s
        = Ok (LightingManager.with_controller m (Some c'))
        ∧ settings_ok c'
        ∧ LightingController.lighting_effect c'
          = LightingController.lighting_effect c.
Proof.
  intros Hint [Hb Hm]. destruct s as [[brightness|]|[sec|]]; try done; simpl.
  - rewrite set_brightness_clamps. eexists. split; [reflexivity|].
    unfold settings_ok. simpl. split; [lia | reflexivity].
  - rewrite set_light_update_msec_positive. eexists. split; [reflexivity|].
    unfold settings_ok. destruct (Z.ltb_spec 0 sec); simpl; auto.
Qed.

Lemma run_setters_ok calls : ∀ (m : LightingManager.t) c,
  Forall int_argument calls → settings_ok c →
  ∃ c', run_setters calls (LightingManager.with_controller m (Some c))
        = Ok (LightingManager.with_controller m (Some c'))
        ∧ settings_ok c'
        ∧ LightingController.lighting_effect c'
          = LightingController.lighting_effect c.
Proof.
  induction calls as [|s calls IH]; intros m c Hint Hc; simpl.
  - exists c. auto.
  - apply List.Forall_cons_iff in Hint as [Hs Hint].
    destruct (call_setter_ok m c s Hs Hc) as (c1 & -> & Hc1 & He1). simpl.
    destruct (IH m c1 Hint Hc1) as (c2 & -> & Hc2 & He2).
    exists c2. split; [reflexivity|]. split; [assumption | congruence].
Qed.

(** C7, for int arguments: from the defaults (brightness 100, interval
    100 ms) every sequence of calls of the two setters with int arguments
    succeeds and leaves a brightness in [0, 300] and a positive interval in the
    controller, whose effect, like the manager's devices and flag, is
    untouched.  After [set_brightness(b)] the brightness read from the
    controller is [b] clamped into [0, 300] (0 after -5, 300 after 1000) and
    the interval is as before; after [set_light_update_msec(s)] the interval
    read from the controller is [s] when [s > 0] (50 after 50) and the
    previous one otherwise (100 after 0), and the brightness is as before. *)
Theorem C7_settings_invariant (e : LightingEffect) (calls : list setter) :
  Forall int_argument calls →
  let c0 := LightingController.init e in
  let m0 := LightingManager.init (Some c0) in
  LightingController.brightness_level c0 = 100
  ∧ LightingController.update_msec c0 = 100
  ∧ (∃ m c, run_setters calls m0 = Ok m
            ∧ LightingManager._controller m = Some c
            ∧ 0 ≤ LightingController.brightness_level c ≤ 300
            ∧ 0 < LightingController.update_msec c
            ∧ LightingController.lighting_effect c = e
            ∧ LightingManager._devices m = LightingManager._devices m0
            ∧ LightingManager._continue m = LightingManager._continue m0)
  ∧ (∀ (m : LightingManager.t) c (brightness : Z),
       ∃ m' c',
         LightingManager.set_brightness
           (LightingManager.with_controller m (Some c)) brightness = Ok m'
         ∧ LightingManager._controller m' = Some c'
         ∧ LightingController.brightness_level c'
           = Z.max 0 (Z.min 300 brightness)
         ∧ LightingController.update_msec c'
           = LightingController.update_msec c)
  ∧ (∀ (m : LightingManager.t) c (sec : Z),
       ∃ m' c',
         LightingManager.set_light_update_msec
           (LightingManager.with_controller m (Some c)) sec = Ok m'
         ∧ LightingManager._controller m' = Some c'
         ∧ LightingController.update_msec c'
           = (if 0 <? sec then sec else LightingController.update_msec c)
         ∧ LightingController.brightness_level c'
           = LightingController.brightness_level c)
  ∧ stored_brightness (LightingManager.set_brightness m0 (-5)) = Some 0
  ∧ stored_brightness (LightingManager.set_brightness m0 1000) = Some 300
  ∧ stored_interval (LightingManager.set_light_update_msec m0 0) = Some 100
  ∧ stored_interval (LightingManager.set_light_update_msec m0 50) = Some 50.
Proof.
  intros Hint c0 m0. split; [reflexivity|]. split; [reflexivity|]. split.
  { destruct (run_setters_ok calls m0 c0 Hint) as (c & Hrun & [Hb Hm] & He).
    - unfold settings_ok. simpl. lia.
    - eexists _, c. split; [exact Hrun|]. split; [reflexivity|].
      split; [exact Hb|]. split; [exact Hm|]. split; [exact He|].
      by split. }
  split.
  { intros m c x. rewrite set_brightness_clamps. eexists _, _.
    split; [reflexivity|]. by repeat split. }
  split.
  { intros m c x. rewrite set_light_update_msec_positive. eexists _, _.
    split; [reflexivity|]. split; [reflexivity|].
    by destruct (0 <? x). }
  repeat split; reflexivity.
Qed.

Lemma C7_settings_invariant_witness :
  ∃ m c, run_setters
           [SetBrightness (-5); SetLightUpdateMsec 0; SetBrightness 1000;
            SetLightUpdateMsec 50] default_manager = Ok m
         ∧ LightingManager._controller m = Some c
         ∧ 0 ≤ LightingController.brightness_level c ≤ 300
         ∧ 0 < LightingController.update_msec c.
Proof.
  destruct (C7_settings_invariant (Static (StaticLightingEffect.init 0 0 0))
              [SetBrightness (-5); SetLightUpdateMsec 0; SetBrightness 1000;
               SetLightUpdateMsec 50])
    as (_ & _ & (m & c & Hrun & Hc & Hb & Hi & _) & _).
  - repeat constructor.
  - exists m, c. repeat split; try assumption; apply Hb.
Defined.

(** C7 fails as stated for an argument that is not an int: the interval
    setter lets the float 0.5 pass its test [sec > 0] and stores [int(0.5)],
    which is 0, so the interval is not positive afterwards; and the brightness
    setter rejects a NaN, which passes neither comparison, with the
    [ValueError] of [int]. *)
Lemma C7_counterexample :
  stored_interval
    (LightingManager.set_light_update_msec default_manager (Float 0.5)) = Some 0
  ∧ stored_interval
      (run_setters [SetLightUpdateMsec (Float 0.5)] default_manager) = Some 0
  ∧ ¬ (∃ msec, stored_interval
                 (run_setters [SetLightUpdateMsec (Float 0.5)] default_manager)
               = Some msec
               ∧ 0 < msec)
  ∧ LightingManager.set_brightness default_manager (Float nan)
    = Raise ValueError.
Proof.
  split; [reflexivity|]. split; [reflexivity|]. split; [|reflexivity].
  intros (msec & Hstored & Hpos). vm_compute in Hstored.
  injection Hstored as <-. lia.
Qed.

(** C10: on a manager that has no controller, the brightness setter, the
    interval setter called with a positive argument, and one iteration of the
    loop body all raise the error of an attribute access on [None]; nothing is
    stored, and no frame is handed to a device. *)
Theorem C10_no_controller `{Colours} (m : LightingManager.t)
    (sensors_temperatures : gmap string (list shwtemp))
    (brightness sec next_poll_msec : Z) :
  LightingManager._controller m = None →
  0 < sec →
  LightingManager.set_brightness m brightness = Raise AttributeError
  ∧ LightingManager.set_light_update_msec m sec = Raise AttributeError
  ∧ LightingManager._main_loop_body sensors_temperatures m next_poll_msec
    = ([], Raise AttributeError).
Proof.
  intros Hnone Hsec.
  unfold LightingManager.set_brightness, LightingManager.set_light_update_msec,
    LightingManager._main_loop_body, LightingManager.the_controller.
  rewrite Hnone, lt_Int, !gt_Int. destruct (Z.ltb_spec 0 sec); [|lia].
  split; [|by split].
  by destruct (brightness <? 0), (300 <? brightness).
Qed.

Lemma C10_no_controller_witness :
  LightingManager.set_brightness (LightingManager.init None) 50
  = Raise AttributeError
  ∧ LightingManager.set_light_update_msec (LightingManager.init None) 50
    = Raise AttributeError
  ∧ LightingManager._main_loop_body (H := black) ∅
      (LightingManager.init None) 1
    = ([], Raise AttributeError).
Proof.
  apply (C10_no_controller (H := black) (LightingManager.init None) ∅
           50 50 1); [reflexivity | lia].
Defined.

(** ** The alternating effect *)

Lemma alternating_run `{Colours} sensors_temperatures calls :
  ∀ a : AlternatingLightingEffect.t,
  ∃ a', run_calls sensors_temperatures calls (Alternating a)
        = Ok (if AlternatingLightingEffect.odd a
              then alternate (count_next calls) (odd_colour a) (even_colour a)
              else alternate (count_next calls) (even_colour a) (odd_colour a),
              Alternating a').
Proof.
  induction calls as [|[] calls IH]; intros a; simpl.
  - exists a. by destruct (AlternatingLightingEffect.odd a).
  - apply IH.
  - apply IH.
  - unfold AlternatingLightingEffect.next.
    destruct (AlternatingLightingEffect.odd a) eqn:Hodd; simpl.
    + destruct (IH (AlternatingLightingEffect.set_odd a false)) as [a' ->].
      by exists a'.
    + destruct (IH (AlternatingLightingEffect.set_odd a true)) as [a' ->].
      by exists a'.
Qed.

Lemma alternating_init_Ok even odd a :
  AlternatingLightingEffect.init even odd = Ok a →
  AlternatingLightingEffect.odd a = true
  ∧ odd = [AlternatingLightingEffect.odd_r a; AlternatingLightingEffect.odd_g a;
           AlternatingLightingEffect.odd_b a]
  ∧ even = [AlternatingLightingEffect.even_r a;
            AlternatingLightingEffect.even_g a;
            AlternatingLightingEffect.even_b a].
Proof.
  unfold AlternatingLightingEffect.init, AlternatingLightingEffect.unpack3.
  destruct even as [|? [|? [|? [|]]]]; try discriminate.
  destruct odd as [|? [|? [|? [|]]]]; try discriminate.
  simpl. intros [= <-]. auto.
Qed.

(** C5: a freshly constructed alternating effect, built from the triples
    (R,G,B) [even] and [odd], answers the [next()] calls of any sequence of
    [begin_dev], [begin_all] and [next] calls with the odd triple, the even
    triple, the odd triple, ..., each as (G,R,B); the colours depend on the
    number of [next()] calls only, whatever calls of the other two methods
    come between them. *)
Theorem C5_alternating_sequence `{Colours}
    (sensors_temperatures : gmap string (list shwtemp))
    (even odd : list Z) (a : AlternatingLightingEffect.t) (calls : list call) :
  AlternatingLightingEffect.init even odd = Ok a →
  odd = [AlternatingLightingEffect.odd_r a; AlternatingLightingEffect.odd_g a;
         AlternatingLightingEffect.odd_b a]
  ∧ even = [AlternatingLightingEffect.even_r a;
            AlternatingLightingEffect.even_g a;
            AlternatingLightingEffect.even_b a]
  ∧ ∃ a', run_calls sensors_temperatures calls (Alternating a)
          = Ok (alternate (count_next calls)
                  (AlternatingLightingEffect.odd_g a,
                   AlternatingLightingEffect.odd_r a,
                   AlternatingLightingEffect.odd_b a)
                  (AlternatingLightingEffect.even_g a,
                   AlternatingLightingEffect.even_r a,
                   AlternatingLightingEffect.even_b a),
                Alternating a').
Proof.
  intros Hinit.
  destruct (alternating_init_Ok even odd a Hinit) as (Hodd & Ho & He).
  split; [assumption|]. split; [assumption|].
  destruct (alternating_run sensors_temperatures calls a) as [a' Hrun].
  rewrite Hodd in Hrun. by exists a'.
Qed.

Lemma C5_alternating_sequence_witness :
  ∃ a, AlternatingLightingEffect.init [1; 2; 3] [4; 5; 6] = Ok a
  ∧ ∃ a', run_calls (H := black) ∅
            [Next; BeginDev; Next; BeginAll; BeginDev; Next; Next]
            (Alternating a)
          = Ok ([(5, 4, 6); (2, 1, 3); (5, 4, 6); (2, 1, 3)], Alternating a').
Proof.
  eexists. split; [reflexivity|].
  exact (proj2 (proj2
    (C5_alternating_sequence (H := black) ∅ [1; 2; 3] [4; 5; 6] _
       [Next; BeginDev; Next; BeginAll; BeginDev; Next; Next] eq_refl))).
Defined.

(** ** Checks over a range of integers *)

Lemma forallb_seqZ (P : Z → bool) (m len z : Z) :
  forallb P (seqZ m len) = true → m ≤ z < m + len → P z = true.
Proof.
  intros Hall Hz. rewrite forallb_forall in Hall. apply Hall.
  apply list_elem_of_In, elem_of_seqZ. lia.
Qed.

(** ** The spinning spectrum *)

Lemma mapM_Ok_elem {A B} (f : A → result B) (l : list A) :
  ∀ k x, mapM f l = Ok k → x ∈ l → ∃ y, f x = Ok y ∧ y ∈ k.
Proof.
  induction l as [|a l IH]; intros k x; simpl.
  - intros _ Hx. by apply elem_of_nil in Hx.
  - destruct (f a) as [y|] eqn:Hy; simpl; [|discriminate].
    destruct (mapM f l) as [k'|]; simpl; [|discriminate].
    intros [= <-] Hx. apply elem_of_cons in Hx as [->|Hx].
    + exists y. split; [exact Hy | apply elem_of_cons; by left].
    + destruct (IH k' x eq_refl Hx) as (y' & Hy' & Hin).
      exists y'. split; [exact Hy' | apply elem_of_cons; by right].
Qed.

Lemma spin_check_sound (rotations counters : list Z) (n r : Z) :
  spin_check rotations counters = true → r ∈ rotations → n ∈ counters →
  ∃ f, SpinningRGBSpectrumLightingEffect.angle n r = Ok (Float f)
       ∧ float_is f (30 * n + 30 * r) = true.
Proof.
  unfold spin_check. intros Hcheck Hr Hn.
  destruct (mapM _ rotations) as [turns|] eqn:Hturns; [|discriminate].
  destruct (mapM_Ok_elem _ _ _ r Hturns Hr) as ([r' y] & Hy & Hin).
  destruct (SpinningRGBSpectrumLightingEffect.steps r) as [y'|] eqn:Hsteps;
    simpl in Hy; [|discriminate].
  injection Hy as <- <-.
  rewrite forallb_forall in Hcheck.
  specialize (Hcheck n (proj1 (list_elem_of_In _ _) Hn)).
  unfold spin_row in Hcheck.
  destruct (SpinningRGBSpectrumLightingEffect.steps n) as [x|] eqn:Hx;
    [|discriminate].
  rewrite forallb_forall in Hcheck.
  specialize (Hcheck (r, y') (proj1 (list_elem_of_In _ _) Hin)).
  simpl in Hcheck.
  destruct (add x y') as [[z|f]|] eqn:Hadd; try discriminate.
  exists f. split; [|exact Hcheck].
  unfold SpinningRGBSpectrumLightingEffect.angle. rewrite Hx. simpl.
  rewrite Hsteps. simpl. exact Hadd.
Qed.

Lemma spin_table_ok : spin_check (seqZ 1 12) (seqZ 1 1024) = true.
Proof. vm_compute. reflexivity. Qed.

Lemma spin_angle_exact_range (n r : Z) :
  1 ≤ n ≤ 1024 → 1 ≤ r ≤ 12 →
  ∃ f, SpinningRGBSpectrumLightingEffect.angle n r = Ok (Float f)
       ∧ float_is f (30 * n + 30 * r) = true.
Proof.
  intros Hn Hr.
  apply (spin_check_sound (seqZ 1 12) (seqZ 1 1024) n r spin_table_ok);
    apply elem_of_seqZ; lia.
Qed.

Lemma spin_begin_all_rotation (e : SpinningRGBSpectrumLightingEffect.t) :
  SpinningRGBSpectrumLightingEffect.rotation
    (SpinningRGBSpectrumLightingEffect.begin_all e)
  = if 11 <? SpinningRGBSpectrumLightingEffect.rotation e then 1
    else SpinningRGBSpectrumLightingEffect.rotation e + 1.
Proof.
  unfold SpinningRGBSpectrumLightingEffect.begin_all. simpl.
  by destruct (11 <? SpinningRGBSpectrumLightingEffect.rotation e).
Qed.

Lemma spin_rotation_cycle `{Colours} (k : nat) :
  SpinningRGBSpectrumLightingEffect.rotation
    (Nat.iter (S k) SpinningRGBSpectrumLightingEffect.begin_all
       SpinningRGBSpectrumLightingEffect.init)
  = Z.of_nat k `mod` 12 + 1.
Proof.
  induction k as [|k IH].
  - reflexivity.
  - change (Nat.iter (S (S k)) ?f ?x) with (f (Nat.iter (S k) f x)).
    rewrite spin_begin_all_rotation, IH.
    replace (Z.of_nat (S k)) with (Z.of_nat k + 1) by lia.
    pose proof (Z.mod_pos_bound (Z.of_nat k) 12 ltac:(lia)) as Hk.
    destruct (Z.ltb_spec 11 (Z.of_nat k `mod` 12 + 1)) as [Hwrap|Hstep].
    + assert (Hlast : Z.of_nat k `mod` 12 = 11) by lia.
      rewrite <- (Zplus_mod_idemp_l (Z.of_nat k)), Hlast. reflexivity.
    + rewrite <- (Zplus_mod_idemp_l (Z.of_nat k)).
      rewrite (Z.mod_small (_ + 1)); lia.
Qed.

(** C6: after the k-th [begin_all] call on a freshly constructed spinning
    spectrum (k >= 1) the rotation is ((k-1) mod 12) + 1, so it runs through
    1, 2, ..., 12, 1, 2, ... and is never 0; and with that rotation and a
    counter n (below 1024) the next [next()] call advances the counter to n+1
    and returns the hue function applied to an angle that is exactly
    30*(n+1) + 30*rotation. *)
Theorem C6_spinning_rotation `{Colours} (k : nat) (n : Z) :
  (1 ≤ k)%nat → 0 ≤ n < 1024 →
  let rot := SpinningRGBSpectrumLightingEffect.rotation (spin_rounds k) in
  let table :=
    SpinningRGBSpectrumLightingEffect.compass_to_rgb_map (spin_rounds k) in
  rot = (Z.of_nat k - 1) `mod` 12 + 1
  ∧ 1 ≤ rot ≤ 12
  ∧ ∃ f, SpinningRGBSpectrumLightingEffect.next
           {| SpinningRGBSpectrumLightingEffect.num_iters := n;
              SpinningRGBSpectrumLightingEffect.compass_to_rgb_map := table;
              SpinningRGBSpectrumLightingEffect.rotation := rot |}
         = Ok (compass_to_rgb (Float f),
               {| SpinningRGBSpectrumLightingEffect.num_iters := n + 1;
                  SpinningRGBSpectrumLightingEffect.compass_to_rgb_map := table;
                  SpinningRGBSpectrumLightingEffect.rotation := rot |})
         ∧ float_is f (30 * (n + 1) + 30 * rot) = true.
Proof.
  intros Hk Hn rot table.
  assert (Hrot : rot = (Z.of_nat k - 1) `mod` 12 + 1).
  { subst rot. destruct k as [|k]; [lia|]. unfold spin_rounds.
    rewrite spin_rotation_cycle. do 2 f_equal. lia. }
  pose proof (Z.mod_pos_bound (Z.of_nat k - 1) 12 ltac:(lia)) as Hbound.
  split; [assumption|]. split; [lia|].
  destruct (spin_angle_exact_range (n + 1) rot) as (f & Hangle & Hexact);
    [lia | lia |].
  exists f. split; [|assumption].
  unfold SpinningRGBSpectrumLightingEffect.next. simpl.
  rewrite Hangle. reflexivity.
Qed.

Lemma C6_spinning_rotation_witness :
  SpinningRGBSpectrumLightingEffect.rotation (spin_rounds (H := black) 13) = 1
  ∧ 1 ≤ SpinningRGBSpectrumLightingEffect.rotation (spin_rounds (H := black) 13)
      ≤ 12
  ∧ ∃ f, SpinningRGBSpectrumLightingEffect.next (H := black)
           {| SpinningRGBSpectrumLightingEffect.num_iters := 2;
              SpinningRGBSpectrumLightingEffect.compass_to_rgb_map :=
                SpinningRGBSpectrumLightingEffect.compass_to_rgb_map
                  (spin_rounds (H := black) 13);
              SpinningRGBSpectrumLightingEffect.rotation := 1 |}
         = Ok ((0, 0, 0),
               {| SpinningRGBSpectrumLightingEffect.num_iters := 3;
                  SpinningRGBSpectrumLightingEffect.compass_to_rgb_map :=
                    SpinningRGBSpectrumLightingEffect.compass_to_rgb_map
                      (spin_rounds (H := black) 13);
                  SpinningRGBSpectrumLightingEffect.rotation := 1 |})
         ∧ float_is f (30 * 3 + 30 * 1) = true.
Proof.
  apply (C6_spinning_rotation (H := black) 13 2); lia.
Defined.

(** ** The factory *)

Lemma bind_params_length params : ∀ args kwargs vs,
  bind_params params args kwargs = Ok vs → length vs = length params.
Proof.
  induction params as [|[name default] params IH]; intros args kwargs vs; simpl.
  - destruct args; [|discriminate]. destruct (decide _); [|discriminate].
    by intros [= <-].
  - destruct args as [|a args].
    + destruct (kwargs !! name) as [v|], default as [d|]; try discriminate;
        (destruct (bind_params params [] _) as [vs'|] eqn:Hvs; simpl;
         [|discriminate]; intros [= <-]; simpl; f_equal; by eapply IH).
    + destruct (kwargs !! name); [discriminate|].
      destruct (bind_params params args kwargs) as [vs'|] eqn:Hvs; simpl;
        [|discriminate].
      intros [= <-]. simpl. f_equal. by eapply IH.
Qed.

Lemma bind_params_raise params : ∀ args kwargs err,
  bind_params params args kwargs = Raise err → err = TypeError.
Proof.
  induction params as [|[name default] params IH]; intros args kwargs err; simpl.
  - destruct args; [|by intros [= <-]]. destruct (decide _); [discriminate|].
    by intros [= <-].
  - destruct args as [|a args].
    + destruct (kwargs !! name) as [v|], default as [d|];
        try (by intros [= <-]);
        (destruct (bind_params params [] _) as [vs'|] eqn:Hvs; simpl;
         [discriminate|]; intros [= <-]; by eapply IH).
    + destruct (kwargs !! name); [by intros [= <-]|].
      destruct (bind_params params args kwargs) as [vs'|] eqn:Hvs; simpl;
        [discriminate|].
      intros [= <-]. by eapply IH.
Qed.

Lemma unpack3_three_items (v : val) :
  if three_items v then ∃ x y z, unpack3 v = Ok (x, y, z)
  else unpack3 v = Raise TypeError ∨ unpack3 v = Raise ValueError.
Proof.
  destruct v as [|n|s|l]; simpl; auto.
  - destruct s as [|x [|y [|z [|]]]]; simpl; eauto.
  - destruct l as [|x [|y [|z [|]]]]; simpl; eauto.
Qed.

Lemma new_static_accepted (args : list val) (kwargs : gmap string val) :
  if binds Stored.static_params args kwargs
  then ∃ r g b, bind_params Stored.static_params args kwargs = Ok [r; g; b]
                ∧ Stored.new_static args kwargs = Ok (Stored.Static r g b)
  else Stored.new_static args kwargs = Raise TypeError.
Proof.
  unfold binds, Stored.new_static.
  destruct (bind_params _ args kwargs) as [vs|err] eqn:Hbind; simpl.
  - apply bind_params_length in Hbind as Hlen.
    destruct vs as [|r [|g [|b [|]]]]; try discriminate. by exists r, g, b.
  - by rewrite (bind_params_raise _ _ _ _ Hbind).
Qed.

Lemma new_temperature_accepted (args : list val) (kwargs : gmap string val) :
  if binds Stored.temperature_params args kwargs
  then ∃ name hot target cold,
         bind_params Stored.temperature_params args kwargs
         = Ok [name; hot; target; cold]
         ∧ Stored.new_temperature args kwargs
           = Ok (Stored.Temperature name hot target cold)
  else Stored.new_temperature args kwargs = Raise TypeError.
Proof.
  unfold binds, Stored.new_temperature.
  destruct (bind_params _ args kwargs) as [vs|err] eqn:Hbind; simpl.
  - apply bind_params_length in Hbind as Hlen.
    destruct vs as [|n [|h [|t [|c [|]]]]]; try discriminate.
    by exists n, h, t, c.
  - by rewrite (bind_params_raise _ _ _ _ Hbind).
Qed.

Lemma new_alternating_accepted (args : list val) (kwargs : gmap string val) :
  match bind_params Stored.alternating_params args kwargs with
  | Ok [even_rgb_matrix; odd_rgb_matrix] =>
      if three_items even_rgb_matrix && three_items odd_rgb_matrix
      then ∃ er eg eb or og ob,
             unpack3 even_rgb_matrix = Ok (er, eg, eb)
             ∧ unpack3 odd_rgb_matrix = Ok (or, og, ob)
             ∧ Stored.new_alternating args kwargs
               = Ok (Stored.Alternating er eg eb or og ob true)
      else Stored.new_alternating args kwargs = Raise TypeError
           ∨ Stored.new_alternating args kwargs = Raise ValueError
  | _ => Stored.new_alternating args kwargs = Raise TypeError
  end.
Proof.
  unfold Stored.new_alternating.
  destruct (bind_params _ args kwargs) as [vs|err] eqn:Hbind; simpl.
  - apply bind_params_length in Hbind as Hlen.
    destruct vs as [|even [|odd [|]]]; try discriminate.
    pose proof (unpack3_three_items even) as Heven.
    pose proof (unpack3_three_items odd) as Hodd.
    destruct (three_items even); simpl.
    + destruct Heven as (er & eg & eb & ->). simpl.
      destruct (three_items odd).
      * destruct Hodd as (or & og & ob & ->). simpl.
        by exists er, eg, eb, or, og, ob.
      * destruct Hodd as [-> | ->]; auto.
    + destruct Heven as [-> | ->]; auto.
  - by rewrite (bind_params_raise _ _ _ _ Hbind).
Qed.

(** What the chain of comparisons gives for each outcome of its tests. *)
Lemma stored_new_effect `{Colours} (_type : val) (args : list val)
    (kwargs : gmap string val) :
  if recognized _type
  then if accepted _type args kwargs
       then ∃ e, Stored.new_effect _type args kwargs = Ok (Some e)
       else Stored.new_effect _type args kwargs = Raise TypeError
            ∨ Stored.new_effect _type args kwargs = Raise ValueError
  else Stored.new_effect _type args kwargs = Ok None.
Proof.
  unfold recognized, accepted, Stored.new_effect.
  destruct (is_str _type "static"); cbn [orb].
  { pose proof (new_static_accepted args kwargs) as Hs.
    destruct (binds _ args kwargs).
    - destruct Hs as (r & g & b & _ & ->). by eexists.
    - rewrite Hs. by left. }
  destruct (is_str _type "alternating"); cbn [orb].
  { pose proof (new_alternating_accepted args kwargs) as Ha.
    destruct (bind_params Stored.alternating_params args kwargs)
      as [[|even [|odd [|]]]|err]; try (rewrite Ha; by left).
    destruct (three_items even && three_items odd).
    - destruct Ha as (er & eg & eb & or & og & ob & _ & _ & ->). by eexists.
    - destruct Ha as [-> | ->]; auto. }
  destruct (is_str _type "rgb_spectrum"); cbn [orb]; [by eexists|].
  destruct (is_str _type "spinning_rgb_spectrum"); cbn [orb]; [by eexists|].
  destruct (is_str _type "temperature"); cbn [orb]; [|reflexivity].
  pose proof (new_temperature_accepted args kwargs) as Ht.
  destruct (binds _ args kwargs).
  - destruct Ht as (n & h & t & c & _ & ->). by eexists.
  - rewrite Ht. by left.
Qed.

Lemma stored_factory_of_pop `{Colours} args kwargs _type args' kwargs' :
  pop_type args kwargs = Ok (_type, args', kwargs') →
  Stored.lighting_controller_factory args kwargs
  = match Stored.new_effect _type args' kwargs' with
    | Ok effect => Ok (Stored.init <$> effect)
    | Raise e => Raise e
    end.
Proof. unfold Stored.lighting_controller_factory. by intros ->. Qed.

Lemma as_int_val (v : val) (z : Z) : as_int v = Ok z → v = Num (Int z).
Proof. destruct v as [|[]| |]; simpl; congruence. Qed.

Lemma as_str_val (v : val) (s : string) : as_str v = Ok s → v = Str s.
Proof. destruct v as [|[]| |]; simpl; congruence. Qed.

(** The factory over the records is the factory over the stored values, read
    at the annotated types: a controller it returns is the one the
    constructor has built, and it returns no result for the same calls. *)
Lemma factory_typed `{Colours} (args : list val) (kwargs : gmap string val) :
  (∀ c, lighting_controller_factory args kwargs = Ok (Some c) →
        ∃ o, Stored.lighting_controller_factory args kwargs = Ok (Some o)
             ∧ typed_controller o = Some c)
  ∧ (lighting_controller_factory args kwargs = Ok None
     ↔ Stored.lighting_controller_factory args kwargs = Ok None).
Proof.
  unfold lighting_controller_factory, Stored.lighting_controller_factory.
  destruct (pop_type args kwargs) as [[[_type args'] kwargs']|err];
    [|split; [discriminate | done]].
  cbn [mbind result_bind].
  unfold new_effect, Stored.new_effect.
  destruct (is_str _type "static").
  { unfold new_static, Stored.new_static, Stored.static_params.
    destruct (bind_params _ args' kwargs') as [vs|]; cbn;
      [|split; [discriminate | done]].
    destruct vs as [|r [|g [|b [|]]]]; cbn; try (split; [discriminate | done]).
    split; [|by destruct (as_int r), (as_int g), (as_int b)].
    intros c.
    destruct (as_int r) as [r'|] eqn:Hr; cbn; [|discriminate].
    destruct (as_int g) as [g'|] eqn:Hg; cbn; [|discriminate].
    destruct (as_int b) as [b'|] eqn:Hb; cbn; [|discriminate].
    intros [= <-]. eexists. split; [reflexivity|].
    by rewrite (as_int_val _ _ Hr), (as_int_val _ _ Hg), (as_int_val _ _ Hb). }
  destruct (is_str _type "alternating").
  { unfold new_alternating, Stored.new_alternating, Stored.alternating_params.
    destruct (bind_params _ args' kwargs') as [vs|]; cbn;
      [|split; [discriminate | done]].
    destruct vs as [|even [|odd [|]]]; cbn; try (split; [discriminate | done]).
    destruct (unpack3 even) as [[[er eg] eb]|]; cbn;
      [|split; [discriminate | done]].
    destruct (unpack3 odd) as [[[or og] ob]|]; cbn;
      [|split; [discriminate | done]].
    split; [|by destruct (as_int er), (as_int eg), (as_int eb), (as_int or),
                 (as_int og), (as_int ob)].
    intros c.
    destruct (as_int er) as [er'|] eqn:Her; cbn; [|discriminate].
    destruct (as_int eg) as [eg'|] eqn:Heg; cbn; [|discriminate].
    destruct (as_int eb) as [eb'|] eqn:Heb; cbn; [|discriminate].
    destruct (as_int or) as [or'|] eqn:Hor; cbn; [|discriminate].
    destruct (as_int og) as [og'|] eqn:Hog; cbn; [|discriminate].
    destruct (as_int ob) as [ob'|] eqn:Hob; cbn; [|discriminate].
    intros [= <-]. eexists. split; [reflexivity|].
    by rewrite (as_int_val _ _ Her), (as_int_val _ _ Heg),
      (as_int_val _ _ Heb), (as_int_val _ _ Hor), (as_int_val _ _ Hog),
      (as_int_val _ _ Hob). }
  destruct (is_str _type "rgb_spectrum").
  { split; [|done]. intros c [= <-]. eexists. split; reflexivity. }
  destruct (is_str _type "spinning_rgb_spectrum").
  { split; [|done]. intros c [= <-]. eexists. split; reflexivity. }
  destruct (is_str _type "temperature"); [|by split].
  unfold new_temperature, Stored.new_temperature, Stored.temperature_params.
  destruct (bind_params _ args' kwargs') as [vs|]; cbn;
    [|split; [discriminate | done]].
  destruct vs as [|n [|h [|t [|c0 [|]]]]]; cbn;
    try (split; [discriminate | done]).
  split; [|by destruct (as_str n), (as_int h), (as_int t), (as_int c0)].
  intros c.
  destruct (as_str n) as [n'|] eqn:Hn; cbn; [|discriminate].
  destruct (as_int h) as [h'|] eqn:Hh; cbn; [|discriminate].
  destruct (as_int t) as [t'|] eqn:Ht; cbn; [|discriminate].
  destruct (as_int c0) as [c'|] eqn:Hc; cbn; [|discriminate].
  intros [= <-]. eexists. split; [reflexivity|].
  by rewrite (as_str_val _ _ Hn), (as_int_val _ _ Hh), (as_int_val _ _ Ht),
    (as_int_val _ _ Hc).
Qed.

(** What the factory returns once the identifier has been taken from the
    call. *)
Lemma stored_factory_outcome `{Colours} (args : list val)
    (kwargs : gmap string val) (_type : val) (args' : list val)
    (kwargs' : gmap string val) :
  pop_type args kwargs = Ok (_type, args', kwargs') →
  (Stored.lighting_controller_factory args kwargs = Ok None
   ↔ recognized _type = false)
  ∧ ((∃ c, Stored.lighting_controller_factory args kwargs = Ok (Some c))
     ↔ recognized _type = true ∧ accepted _type args' kwargs' = true)
  ∧ (recognized _type = true → accepted _type args' kwargs' = false →
     Stored.lighting_controller_factory args kwargs = Raise TypeError
     ∨ Stored.lighting_controller_factory args kwargs = Raise ValueError)
  ∧ (∀ c, Stored.lighting_controller_factory args kwargs = Ok (Some c) →
          ∃ e, Stored.new_effect _type args' kwargs' = Ok (Some e)
               ∧ c = Stored.init e).
Proof.
  intros Hpop. rewrite (stored_factory_of_pop _ _ _ _ _ Hpop).
  pose proof (stored_new_effect _type args' kwargs') as Hnew.
  destruct (recognized _type), (accepted _type args' kwargs').
  - destruct Hnew as [e ->]. simpl. split; [by split|].
    split; [split; [done | by eexists]|].
    split; [done|]. intros c [= <-]. by exists e.
  - split; [|split; [|split]].
    + split; [|done]. by destruct Hnew as [-> | ->].
    + split; [|by intros [_ ?]]. intros [c Hc].
      by destruct Hnew as [Hn | Hn]; rewrite Hn in Hc.
    + intros _ _. destruct Hnew as [-> | ->]; auto.
    + intros c Hc. by destruct Hnew as [Hn | Hn]; rewrite Hn in Hc.
  - rewrite Hnew. simpl. split; [done|]. split; [|split; [done|done]].
    split; [by intros [c ?] | by intros [? _]].
  - rewrite Hnew. simpl. split; [done|]. split; [|split; [done|done]].
    split; [by intros [c ?] | by intros [? _]].
Qed.

(** C8, as the code has it: the factory takes the identifier from the first
    positional argument, or from the keyword [type] when there is no positional
    argument.  It returns no result exactly when the identifier is not one of
    the five kinds.  It returns a controller exactly when the identifier is
    one of the five and the constructor of that kind accepts the remaining
    parameters, and the controller is the one of the effect the constructor
    has built; when the constructor does not accept them, its [TypeError] or
    [ValueError] leaves the factory.  A call with keywords only and no [type]
    keyword raises [KeyError].  Kind by kind: a static effect is built from
    any three values, stored as they come, and a call with another number of
    positional values raises [TypeError]; an alternating effect is built from
    two lists of three numbers, the flag set; the two spectra are built
    whatever the remaining parameters are; a temperature effect is built from
    a sensor name with the thresholds 60, 30 and 20. *)
Theorem C8_factory_dispatch `{Colours} :
  (∀ (args : list val) (kwargs : gmap string val) _type args' kwargs',
     pop_type args kwargs = Ok (_type, args', kwargs') →
     (Stored.lighting_controller_factory args kwargs = Ok None
      ↔ recognized _type = false)
     ∧ ((∃ c, Stored.lighting_controller_factory args kwargs = Ok (Some c))
        ↔ recognized _type = true ∧ accepted _type args' kwargs' = true)
     ∧ (recognized _type = true → accepted _type args' kwargs' = false →
        Stored.lighting_controller_factory args kwargs = Raise TypeError
        ∨ Stored.lighting_controller_factory args kwargs = Raise ValueError)
     ∧ (∀ c, Stored.lighting_controller_factory args kwargs = Ok (Some c) →
             ∃ e, Stored.new_effect _type args' kwargs' = Ok (Some e)
                  ∧ c = Stored.init e))
  ∧ (∀ (_type : val) (args : list val) (kwargs : gmap string val),
       pop_type (_type :: args) kwargs = Ok (_type, args, kwargs)
       ∧ pop_type [] (<["type" := _type]> kwargs)
         = Ok (_type, [], delete "type" kwargs))
  ∧ (∀ kwargs : gmap string val,
       kwargs !! "type" = None →
       Stored.lighting_controller_factory [] kwargs = Raise KeyError)
  ∧ (∀ r g b : val,
       Stored.lighting_controller_factory [Str "static"; r; g; b] ∅
       = Ok (Some (Stored.init (Stored.Static r g b))))
  ∧ (∀ vs : list val, length vs ≠ 3%nat →
       Stored.lighting_controller_factory (Str "static" :: vs) ∅
       = Raise TypeError)
  ∧ (∀ x y z x' y' z' : num,
       Stored.lighting_controller_factory
         [Str "alternating"; Seq [x; y; z]; Seq [x'; y'; z']] ∅
       = Ok (Some (Stored.init
                     (Stored.Alternating (Num x) (Num y) (Num z)
                        (Num x') (Num y') (Num z') true))))
  ∧ (∀ (args : list val) (kwargs : gmap string val),
       Stored.lighting_controller_factory (Str "rgb_spectrum" :: args) kwargs
       = Ok (Some (Stored.init
                     (Stored.RGBSpectrum RGBSpectrumLightingEffect.init))))
  ∧ (∀ (args : list val) (kwargs : gmap string val),
       Stored.lighting_controller_factory
         (Str "spinning_rgb_spectrum" :: args) kwargs
       = Ok (Some (Stored.init
                     (Stored.SpinningRGBSpectrum
                        SpinningRGBSpectrumLightingEffect.init))))
  ∧ (∀ sensor_name : val,
       Stored.lighting_controller_factory [Str "temperature"; sensor_name] ∅
       = Ok (Some (Stored.init
                     (Stored.Temperature sensor_name (Num (Int 60))
                        (Num (Int 30)) (Num (Int 20)))))).
Proof.
  split; [intros; by apply stored_factory_outcome|].
  split.
  { intros _type args kwargs. split; [reflexivity|].
    unfold pop_type. by rewrite lookup_insert_eq, delete_insert_eq. }
  split.
  { intros kwargs Hmiss. unfold Stored.lighting_controller_factory, pop_type.
    by rewrite Hmiss. }
  split; [intros r g b; reflexivity|].
  split.
  { intros vs Hlen. destruct vs as [|r [|g [|b [|x vs]]]]; try reflexivity.
    by destruct Hlen. }
  split; [intros; reflexivity|].
  split; [intros; reflexivity|].
  split; [intros; reflexivity|].
  intros sensor_name. reflexivity.
Qed.

Lemma C8_factory_dispatch_witness :
  (Stored.lighting_controller_factory (H := black) [Str "disco"] ∅ = Ok None
   ↔ recognized (Str "disco") = false)
  ∧ ((∃ c, Stored.lighting_controller_factory (H := black)
             [Str "temperature"; Str "cpu"] ∅ = Ok (Some c))
     ↔ recognized (Str "temperature") = true
       ∧ accepted (Str "temperature") [Str "cpu"] ∅ = true)
  ∧ Stored.lighting_controller_factory (H := black) []
      {[ "r" := Num (Int 1) ]} = Raise KeyError.
Proof.
  split; [|split].
  - exact (proj1 (proj1 (C8_factory_dispatch (H := black))
                    [Str "disco"] ∅ (Str "disco") [] ∅ eq_refl)).
  - exact (proj1 (proj2 (proj1 (C8_factory_dispatch (H := black))
                           [Str "temperature"; Str "cpu"] ∅
                           (Str "temperature") [Str "cpu"] ∅ eq_refl))).
  - exact (proj1 (proj2 (proj2 (C8_factory_dispatch (H := black))))
             {[ "r" := Num (Int 1) ]} eq_refl).
Defined.

(** C8 fails as stated: [static] is one of the five kinds, and the call
    [lighting_controller_factory('static', 1, 2)] yields no controller: the
    constructor lacks its third channel and its [TypeError] leaves the
    factory. *)
Lemma C8_counterexample :
  recognized (Str "static") = true
  ∧ Stored.lighting_controller_factory (H := black)
      [Str "static"; Num (Int 1); Num (Int 2)] ∅ = Raise TypeError
  ∧ lighting_controller_factory (H := black)
      [Str "static"; Num (Int 1); Num (Int 2)] ∅ = Raise TypeError
  ∧ ¬ (recognized (Str "static") = true
       ↔ ∃ c, Stored.lighting_controller_factory (H := black)
                [Str "static"; Num (Int 1); Num (Int 2)] ∅ = Ok (Some c)).
Proof.
  split; [reflexivity|]. split; [reflexivity|]. split; [reflexivity|].
  intros [Hyes _]. by destruct (Hyes eq_refl) as [c Hc].
Qed.

(** ** The temperature effect *)

Lemma read_current_unknown (sensors_temperatures : gmap string (list shwtemp))
    (name : string) :
  sensors_temperatures !! name = None →
  TemperatureLightingEffect.read_current sensors_temperatures name
  = Raise TypeError.
Proof. unfold TemperatureLightingEffect.read_current. by intros ->. Qed.

(** The two forms of [begin_all] agree: the call returns the object that the
    stepwise form leaves behind, and raises what it raises. *)
Lemma begin_all_state_result (sensors_temperatures : gmap string (list shwtemp))
    (e : TemperatureLightingEffect.t) :
  TemperatureLightingEffect.begin_all sensors_temperatures e
  = match TemperatureLightingEffect.begin_all_state sensors_temperatures e with
    | (e', Ok _) => Ok e'
    | (_, Raise err) => Raise err
    end.
Proof.
  unfold TemperatureLightingEffect.begin_all,
    TemperatureLightingEffect.begin_all_state.
  destruct (TemperatureLightingEffect.read_current _ _) as [cur|err]; simpl;
    [|reflexivity].
  repeat match goal with
         | |- context [if ?b then _ else _] => destruct b
         end; try reflexivity;
    repeat match goal with
           | |- context [mbind _ ?r] => destruct r; simpl; try reflexivity
           end.
Qed.

(** C9, as the code has it: when [sensors_temperatures()] has no entry for
    the configured sensor name, [begin_all] of the temperature effect raises
    the [TypeError] of subscripting [None]; the lookup comes before the first
    assignment, so the effect is left as it was, with the temperature and the
    angle it had; the error leaves the loop body before any frame is handed to
    a device, and it ends the worker loop. *)
Theorem C9_unknown_sensor_raises `{Colours}
    (sensors_temperatures : gmap string (list shwtemp))
    (rounds : list (gmap string (list shwtemp)))
    (e : TemperatureLightingEffect.t) (m : LightingManager.t)
    (c : LightingController.t) (next_poll_msec : Z) :
  sensors_temperatures !! TemperatureLightingEffect.sensor_name e = None →
  LightingManager._controller m = Some c →
  LightingController.lighting_effect c = Temperature e →
  TemperatureLightingEffect.begin_all sensors_temperatures e = Raise TypeError
  ∧ TemperatureLightingEffect.begin_all_state sensors_temperatures e
    = (e, Raise TypeError)
  ∧ TemperatureLightingEffect.cur_temp
      (TemperatureLightingEffect.begin_all_state sensors_temperatures e).1
    = TemperatureLightingEffect.cur_temp e
  ∧ TemperatureLightingEffect.angle
      (TemperatureLightingEffect.begin_all_state sensors_temperatures e).1
    = TemperatureLightingEffect.angle e
  ∧ begin_all sensors_temperatures (Temperature e) = Raise TypeError
  ∧ LightingManager._main_loop_body sensors_temperatures m next_poll_msec
    = ([], Raise TypeError)
  ∧ LightingManager._main_loop (sensors_temperatures :: rounds)
      (LightingManager.start m)
    = ([], Raise TypeError).
Proof.
  intros Hmiss Hc He.
  assert (Hbegin : TemperatureLightingEffect.begin_all sensors_temperatures e
                   = Raise TypeError).
  { unfold TemperatureLightingEffect.begin_all.
    by rewrite (read_current_unknown _ _ Hmiss). }
  assert (Hstate : TemperatureLightingEffect.begin_all_state
                     sensors_temperatures e = (e, Raise TypeError)).
  { unfold TemperatureLightingEffect.begin_all_state.
    by rewrite (read_current_unknown _ _ Hmiss). }
  assert (Hbody : ∀ m', LightingManager._controller m' = Some c →
            LightingManager._main_loop_body sensors_temperatures m'
              next_poll_msec = ([], Raise TypeError)).
  { intros m' Hc'.
    unfold LightingManager._main_loop_body, LightingManager.the_controller.
    rewrite Hc'. simpl. rewrite He. simpl. by rewrite Hbegin. }
  split; [assumption|]. split; [assumption|].
  rewrite Hstate. split; [reflexivity|]. split; [reflexivity|].
  split; [simpl; by rewrite Hbegin|].
  split; [by apply Hbody|].
  unfold LightingManager._main_loop. simpl.
  unfold LightingManager._main_loop_body, LightingManager.the_controller.
  simpl. rewrite Hc. simpl. rewrite He. simpl. by rewrite Hbegin.
Qed.

Lemma C9_unknown_sensor_raises_witness :
  TemperatureLightingEffect.begin_all (one_sensor "gpu" 40) default_temperature
  = Raise TypeError
  ∧ TemperatureLightingEffect.begin_all_state (one_sensor "gpu" 40)
      default_temperature
    = (default_temperature, Raise TypeError)
  ∧ TemperatureLightingEffect.cur_temp
      (TemperatureLightingEffect.begin_all_state (one_sensor "gpu" 40)
         default_temperature).1
    = TemperatureLightingEffect.cur_temp default_temperature
  ∧ TemperatureLightingEffect.angle
      (TemperatureLightingEffect.begin_all_state (one_sensor "gpu" 40)
         default_temperature).1
    = TemperatureLightingEffect.angle default_temperature
  ∧ begin_all (one_sensor "gpu" 40) (Temperature default_temperature)
    = Raise TypeError
  ∧ LightingManager._main_loop_body (H := black) (one_sensor "gpu" 40)
      (configured (LightingController.init (Temperature default_temperature))
         [{| num_leds := 12 |}]) 1
    = ([], Raise TypeError)
  ∧ LightingManager._main_loop (H := black)
      [one_sensor "gpu" 40; one_sensor "cpu" 40]
      (LightingManager.start
         (configured (LightingController.init (Temperature default_temperature))
            [{| num_leds := 12 |}]))
    = ([], Raise TypeError).
Proof.
  apply (C9_unknown_sensor_raises (H := black) (one_sensor "gpu" 40)
           [one_sensor "cpu" 40] default_temperature
           (configured
              (LightingController.init (Temperature default_temperature))
              [{| num_leds := 12 |}])
           (LightingController.init (Temperature default_temperature))
           1); reflexivity.
Defined.

(** C9 fails as stated: with no reading for the sensor the effect does not
    raise an error of its own and the worker does not go on; [begin_all]
    raises the [TypeError] of the [None] subscript, and the worker loop ends
    with it in its first round. *)
Lemma C9_counterexample :
  TemperatureLightingEffect.begin_all ∅ default_temperature = Raise TypeError
  ∧ LightingManager._main_loop (H := black) [∅; ∅]
      (running (LightingController.init (Temperature default_temperature))
         [{| num_leds := 12 |}])
    = ([], Raise TypeError)
  ∧ ¬ (TemperatureLightingEffect.begin_all ∅ default_temperature
       ≠ Raise TypeError
       ∧ ∃ st, (LightingManager._main_loop (H := black) [∅; ∅]
                  (running
                     (LightingController.init (Temperature default_temperature))
                     [{| num_leds := 12 |}])).2
               = Ok st).
Proof.
  split; [reflexivity|]. split; [reflexivity|].
  intros [Hexplicit _]. apply Hexplicit. reflexivity.
Qed.

(** C1: with the default thresholds (cold 20, target 30, hot 60) and a
    reading of 25, midway between cold and target, [begin_all] stores the angle
    60, not the midpoint 180 of the cold angle 240 and the target angle 120:
    the branch for cold < cur < target leaves out the target angle that the
    interpolation starts from. *)
Theorem C1_midpoint_angle_is_60 :
  TemperatureLightingEffect.angle
    <$> TemperatureLightingEffect.begin_all (one_sensor "cpu" 25)
        default_temperature
  = Ok (Float 60)
  ∧ (TemperatureLightingEffect.cold_angle default_temperature
     + TemperatureLightingEffect.target_angle default_temperature) / 2 = 180
  ∧ float_is 60 180 = false.
Proof. vm_compute. auto. Qed.

(** The branch for target < cur <= hot does interpolate: midway between
    target and hot the angle is midway between 120 and 0. *)
Lemma hot_branch_midpoint :
  TemperatureLightingEffect.angle
    <$> TemperatureLightingEffect.begin_all (one_sensor "cpu" 45)
        default_temperature
  = Ok (Float 60).
Proof. vm_compute. reflexivity. Qed.

(** Just above the cold threshold the angle falls from 240 to below 120, and
    just below the target it is near 0 although the target angle is 120. *)
Lemma cold_branch_jumps :
  TemperatureLightingEffect.angle
    <$> TemperatureLightingEffect.begin_all (one_sensor "cpu" 20)
        default_temperature
  = Ok (Int 240)
  ∧ TemperatureLightingEffect.angle
      <$> TemperatureLightingEffect.begin_all (one_sensor "cpu" 20.5)
        default_temperature
    = Ok (Float 114)
  ∧ TemperatureLightingEffect.angle
      <$> TemperatureLightingEffect.begin_all (one_sensor "cpu" 29.5)
        default_temperature
    = Ok (Float 6)
  ∧ TemperatureLightingEffect.angle
      <$> TemperatureLightingEffect.begin_all (one_sensor "cpu" 30)
        default_temperature
    = Ok (Int 120).
Proof. vm_compute. auto. Qed.

(** ** The controller's frame *)

(** A [next()] call that raises makes the frame raise. *)
Lemma main_for_raises `{Colours} sensors_temperatures (n : nat) :
  ∀ (self : LightingController.t) (data : list Z),
  raises (run_calls sensors_temperatures (replicate n Next)
            (LightingController.lighting_effect self)) →
  raises (LightingController.main_for n self data).
Proof.
  induction n as [|n IH]; intros self data [err Herr]; simpl in *.
  - discriminate.
  - destruct (next (LightingController.lighting_effect self))
      as [[c e']|err'] eqn:Hnext; simpl in *; [|by eexists].
    destruct (LightingController._brightness_processor _ c) as [px|err'];
      simpl; [|by eexists].
    apply IH. simpl.
    destruct (run_calls sensors_temperatures (replicate n Next) e')
      as [[out e'']|err'']; simpl in *; [discriminate | by eexists].
Qed.

Lemma main_raises `{Colours} sensors_temperatures
    (self : LightingController.t) (device : Device) :
  raises (run_calls sensors_temperatures
            (BeginDev :: replicate (Z.to_nat (num_leds device)) Next)
            (LightingController.lighting_effect self)) →
  raises (LightingController.main self device).
Proof.
  intros Hrun. unfold LightingController.main.
  destruct (main_for_raises sensors_temperatures (Z.to_nat (num_leds device))
              (LightingController.set_lighting_effect self
                 (begin_dev (LightingController.lighting_effect self))) [])
    as [err Herr]; [exact Hrun|].
  rewrite Herr. by eexists.
Qed.

(** C2: after [begin_dev], the first eleven [next()] calls of the RGB
    spectrum return the table entries for the angles 30, 60, ..., 330, and the
    twelfth call, whose index is 360, raises [IndexError]: the table has the
    entries 0 to 359 and the index is not reduced modulo 360.  So the frame of
    a device of 12 LEDs is never built. *)
Theorem C2_rgb_spectrum_twelfth_led `{Colours}
    (sensors_temperatures : gmap string (list shwtemp))
    (c : LightingController.t) :
  fst <$> run_calls sensors_temperatures (BeginDev :: replicate 11 Next)
            (RGBSpectrum RGBSpectrumLightingEffect.init)
  = Ok ((λ k, compass_to_rgb (Int (30 * k))) <$> seqZ 1 11)
  ∧ run_calls sensors_temperatures (BeginDev :: replicate 12 Next)
      (RGBSpectrum RGBSpectrumLightingEffect.init)
    = Raise IndexError
  ∧ raises (LightingController.main
              (LightingController.set_lighting_effect c
                 (RGBSpectrum RGBSpectrumLightingEffect.init))
              {| num_leds := 12 |}).
Proof.
  assert (Htwelve : run_calls sensors_temperatures
                      (BeginDev :: replicate 12 Next)
                      (RGBSpectrum RGBSpectrumLightingEffect.init)
                    = Raise IndexError) by (vm_compute; reflexivity).
  split; [vm_compute; reflexivity|]. split; [exact Htwelve|].
  apply (main_raises sensors_temperatures). simpl num_leds.
  change (Z.to_nat 12) with 12%nat.
  unfold LightingController.set_lighting_effect,
    LightingController.lighting_effect.
  rewrite Htwelve. by eexists.
Qed.

(** C3: at the default brightness 100 the frame of a static effect of
    colour (29, 29, 29) on a device of one LED is [28; 28; 28]:
    [int(29/100*100)] is 28, since 29/100 is rounded below 0.29 and the product
    stays below 29, while floor(29 * 100 / 100) is 29. *)
Theorem C3_brightness_100_changes_29 `{Colours} :
  LightingController.brightness_level
    (LightingController.init (Static (StaticLightingEffect.init 29 29 29)))
  = 100
  ∧ (λ r, (r.1.1, r.1.2))
      <$> LightingController.main
            (LightingController.init (Static (StaticLightingEffect.init 29 29 29)))
            {| num_leds := 1 |}
    = Ok ([28; 28; 28], 100)
  ∧ LightingController.scale 100 29 = Ok 28
  ∧ 29 * 100 / 100 = 29.
Proof. vm_compute. auto. Qed.

(** ** Brightness scaling *)

Lemma scale_check_sound (brightnesses channels : list Z) (b i : Z) :
  scale_check brightnesses channels = true → b ∈ brightnesses → i ∈ channels →
  ∃ v, LightingController.scale b i = Ok v
       ∧ 0 ≤ v ∧ i * b / 100 - 1 ≤ v ≤ i * b / 100.
Proof.
  unfold scale_check. intros Hcheck Hb Hi.
  destruct (mapM _ brightnesses) as [levels|] eqn:Hlevels; [|discriminate].
  destruct (mapM_Ok_elem _ _ _ b Hlevels Hb) as ([b' level] & Hlevel & Hin).
  destruct (float_of_int b) as [level'|] eqn:Hconv; simpl in Hlevel;
    [|discriminate].
  injection Hlevel as <- <-.
  rewrite forallb_forall in Hcheck.
  specialize (Hcheck i (proj1 (list_elem_of_In _ _) Hi)).
  unfold scale_row in Hcheck.
  destruct (truediv (Int i) (Int 100)) as [[z|q]|] eqn:Hq; try discriminate.
  rewrite forallb_forall in Hcheck.
  specialize (Hcheck (b, level') (proj1 (list_elem_of_In _ _) Hin)).
  simpl in Hcheck. unfold scale_cell in Hcheck.
  destruct (int (Float (q * level'))) as [v|] eqn:Hv; [|discriminate].
  exists v. split.
  - unfold LightingController.scale. rewrite Hq. simpl.
    unfold mul, arith. simpl. rewrite Hconv. simpl. exact Hv.
  - apply andb_true_iff in Hcheck as [Hpos Hnear].
    apply orb_true_iff in Hnear. lia.
Qed.

Lemma scale_table_ok : scale_check (seqZ 0 301) (seqZ 0 256) = true.
Proof. vm_compute. reflexivity. Qed.

Lemma scale_range (b i : Z) :
  0 ≤ b ≤ 300 → channel i →
  ∃ v, LightingController.scale b i = Ok v
       ∧ 0 ≤ v ∧ i * b / 100 - 1 ≤ v ≤ i * b / 100.
Proof.
  intros Hb Hi. unfold channel in Hi.
  apply (scale_check_sound (seqZ 0 301) (seqZ 0 256) b i scale_table_ok);
    apply elem_of_seqZ; lia.
Qed.

Lemma scale_sink_value (b i : Z) :
  0 ≤ b ≤ 300 → channel i →
  ∃ v, LightingController.scale b i = Ok v ∧ sink_value b v.
Proof.
  intros Hb Hi. destruct (scale_range b i Hb Hi) as (v & Hv & Hpos & Hnear).
  exists v. split; [assumption|]. unfold channel in Hi. unfold sink_value.
  assert (i * b / 100 ≤ 765) by (apply Z.div_le_upper_bound; nia).
  split; [lia|]. intros Hnominal.
  assert (i * b / 100 ≤ 255) by (apply Z.div_le_upper_bound; nia). lia.
Qed.

Lemma _brightness_processor_zero (self : LightingController.t) (c : rgb) :
  LightingController.brightness_level self = 0 →
  LightingController._brightness_processor self c = Ok [0; 0; 0].
Proof. unfold LightingController._brightness_processor. by intros ->. Qed.

Lemma _brightness_processor_length (self : LightingController.t) (c : rgb) px :
  LightingController._brightness_processor self c = Ok px → length px = 3%nat.
Proof.
  unfold LightingController._brightness_processor.
  destruct (LightingController.brightness_level self =? 0).
  - by intros [= <-].
  - destruct c as [[x y] z]. simpl.
    destruct (LightingController.scale _ x); simpl; [|discriminate].
    destruct (LightingController.scale _ y); simpl; [|discriminate].
    destruct (LightingController.scale _ z); simpl; [|discriminate].
    by intros [= <-].
Qed.

Lemma _brightness_processor_sink (self : LightingController.t) (c : rgb) :
  0 ≤ LightingController.brightness_level self ≤ 300 → colour c →
  ∃ px, LightingController._brightness_processor self c = Ok px
        ∧ Forall (sink_value (LightingController.brightness_level self)) px.
Proof.
  intros Hb (Hx & Hy & Hz). unfold LightingController._brightness_processor.
  destruct (Z.eqb_spec (LightingController.brightness_level self) 0) as [H0|_].
  - exists [0; 0; 0]. split; [reflexivity|].
    repeat (apply List.Forall_cons; [unfold sink_value; lia|]).
    apply List.Forall_nil.
  - destruct c as [[x y] z]. simpl in *.
    destruct (scale_sink_value _ x Hb Hx) as (vx & -> & Hvx).
    destruct (scale_sink_value _ y Hb Hy) as (vy & -> & Hvy).
    destruct (scale_sink_value _ z Hb Hz) as (vz & -> & Hvz).
    exists [vx; vy; vz]. split; [reflexivity|].
    repeat (apply List.Forall_cons; [assumption|]). apply List.Forall_nil.
Qed.

(** ** The colours of the effects *)

Lemma getitem_elem {A} (l : list A) (i : Z) (x : A) :
  getitem l i = Ok x → x ∈ l.
Proof.
  unfold getitem.
  destruct ((0 <=? _) && _); [|discriminate].
  destruct (l !! _) as [y|] eqn:Hy; [|discriminate].
  intros [= <-]. by eapply list_elem_of_lookup_2.
Qed.

Lemma begin_dev_colours (e : LightingEffect) :
  effect_colours e → effect_colours (begin_dev e).
Proof. by destruct e. Qed.

Lemma begin_all_colours sensors_temperatures (e e' : LightingEffect) :
  begin_all sensors_temperatures e = Ok e' →
  effect_colours e → effect_colours e'.
Proof.
  destruct e as [s|a|s|s|t]; simpl; try (by intros [= <-]).
  destruct (TemperatureLightingEffect.begin_all sensors_temperatures t);
    simpl; [by intros [= <-] | discriminate].
Qed.

Lemma next_colours `{Colours} (e e' : LightingEffect) (c : rgb) :
  hue_colours → next e = Ok (c, e') → effect_colours e →
  colour c ∧ effect_colours e'.
Proof.
  intros Hhue. destruct e as [s|a|s|s|t]; simpl.
  - intros Heq Hs. by simplify_eq.
  - unfold AlternatingLightingEffect.next.
    destruct (AlternatingLightingEffect.odd a);
      intros Heq [Hodd Heven]; simplify_eq; simpl; auto.
  - unfold RGBSpectrumLightingEffect.next.
    destruct (truediv _ _) as [step|]; simpl; [|discriminate].
    destruct (mul _ _) as [pos|]; simpl; [|discriminate].
    destruct (int pos) as [i|]; simpl; [|discriminate].
    destruct (getitem _ i) as [x|] eqn:Hx; simpl; [|discriminate].
    intros Heq Htable. simplify_eq. split; [|exact Htable].
    apply getitem_elem in Hx. simpl in Hx.
    by apply (proj1 (Forall_forall _ _) Htable).
  - unfold SpinningRGBSpectrumLightingEffect.next.
    destruct (SpinningRGBSpectrumLightingEffect.angle _ _) as [a|]; simpl;
      [|discriminate].
    intros Heq _. simplify_eq. split; [apply Hhue | exact I].
  - intros Heq _. simplify_eq. split; [apply Hhue | exact I].
Qed.

Lemma init_spectrum_colours `{Colours} :
  hue_colours → effect_colours (RGBSpectrum RGBSpectrumLightingEffect.init).
Proof.
  intros Hhue. unfold effect_colours, RGBSpectrumLightingEffect.init,
    RGBSpectrumLightingEffect.compass_to_rgb_map.
  apply Forall_fmap, Forall_forall. intros a _. apply Hhue.
Qed.

(** ** What the devices are handed *)

Section Sink.
Context `{Colours}.
Variable b : Z.
Hypothesis Hhue : hue_colours.
Hypothesis Hb : 0 ≤ b ≤ 300.

Lemma main_for_sink (n : nat) :
  ∀ (self : LightingController.t) (data : list Z),
  ctrl_ok b self → Forall (sink_value b) data →
  match LightingController.main_for n self data with
  | Ok (data', self') =>
      Forall (sink_value b) data' ∧ ctrl_ok b self'
      ∧ LightingController.update_msec self'
        = LightingController.update_msec self
      ∧ length data' = (length data + 3 * n)%nat
  | Raise _ => True
  end.
Proof using Hhue Hb.
  induction n as [|n IH]; intros self data [Hlevel Hcol] Hdata; simpl.
  - repeat split; [assumption.. | lia].
  - destruct (next (LightingController.lighting_effect self))
      as [[c e']|err] eqn:Hnext; simpl; [|exact I].
    destruct (next_colours _ _ _ Hhue Hnext Hcol) as [Hc He'].
    set (self1 := LightingController.set_lighting_effect self e').
    destruct (_brightness_processor_sink self1 c) as (px & Hpx & Hsink);
      [subst self1; simpl; lia | assumption |].
    rewrite Hpx. simpl.
    pose proof (_brightness_processor_length _ _ _ Hpx) as Hlen.
    assert (Hlevel1 : LightingController.brightness_level self1 = b)
      by (subst self1; simpl; assumption).
    rewrite Hlevel1 in Hsink.
    specialize (IH self1 (data ++ px)).
    destruct (LightingController.main_for n self1 (data ++ px))
      as [[data' self']|err]; [|exact I].
    destruct IH as (Hd & Hc' & Hm & Hl).
    + by split.
    + by apply Forall_app.
    + split; [exact Hd|]. split; [exact Hc'|]. split; [exact Hm|].
      rewrite Hl, length_app, Hlen. lia.
Qed.

Lemma main_sink (self : LightingController.t) (device : Device) :
  ctrl_ok b self →
  match LightingController.main self device with
  | Ok (data, msec, self') =>
      Forall (sink_value b) data ∧ ctrl_ok b self'
      ∧ msec = LightingController.update_msec self
      ∧ length data = (3 * Z.to_nat (num_leds device))%nat
  | Raise _ => True
  end.
Proof using Hhue Hb.
  intros [Hlevel Hcol]. unfold LightingController.main.
  set (self0 := LightingController.set_lighting_effect self _).
  pose proof (main_for_sink (Z.to_nat (num_leds device)) self0 []) as Hfor.
  destruct (LightingController.main_for _ self0 []) as [[data self']|err];
    simpl; [|exact I].
  destruct Hfor as (Hd & Hc & Hm & Hl).
  - split; [assumption|]. by apply begin_dev_colours.
  - constructor.
  - split; [exact Hd|]. split; [exact Hc|]. split; [exact Hm | exact Hl].
Qed.

Lemma for_devices_sink (devices : list Device) :
  ∀ (m : LightingManager.t) (next_poll_msec : Z),
  manager_ok b m →
  frames_ok b (LightingManager.for_devices devices m next_poll_msec).1
  ∧ match (LightingManager.for_devices devices m next_poll_msec).2 with
    | Ok (m', _) => manager_ok b m'
    | Raise _ => True
    end.
Proof using Hhue Hb.
  induction devices as [|dev devices IH]; intros m poll Hm; simpl.
  - split; [constructor | assumption].
  - destruct Hm as (c & Hc & Hok).
    unfold LightingManager.the_controller. rewrite Hc. simpl.
    pose proof (main_sink c dev Hok) as Hmain.
    destruct (LightingController.main c dev) as [[[data msec] c']|err];
      simpl; [|split; [constructor | exact I]].
    destruct Hmain as (Hdata & Hok' & _ & _).
    specialize (IH (LightingManager.with_controller m (Some c')) msec).
    destruct (LightingManager.for_devices devices _ msec) as [sent r].
    destruct IH as [Hsent Hr]; [by exists c'|].
    split; [|exact Hr]. by constructor.
Qed.

Lemma _main_loop_body_sink sensors_temperatures (m : LightingManager.t)
    (next_poll_msec : Z) :
  manager_ok b m →
  frames_ok b
    (LightingManager._main_loop_body sensors_temperatures m next_poll_msec).1
  ∧ match (LightingManager._main_loop_body sensors_temperatures m
             next_poll_msec).2 with
    | Ok (m', _) => manager_ok b m'
    | Raise _ => True
    end.
Proof using Hhue Hb.
  intros (c & Hc & Hlevel & Hcol). unfold LightingManager._main_loop_body.
  unfold LightingManager.the_controller. rewrite Hc. simpl.
  destruct (begin_all sensors_temperatures _) as [e|err] eqn:Hbegin; simpl;
    [|split; [constructor | exact I]].
  apply for_devices_sink. eexists. split; [reflexivity|].
  split; [exact Hlevel|]. simpl. by eapply begin_all_colours.
Qed.

Lemma _main_loop_rounds_sink rounds :
  ∀ (m : LightingManager.t) (next_poll_msec : Z),
  manager_ok b m →
  frames_ok b (LightingManager._main_loop_rounds rounds m next_poll_msec).1.
Proof using Hhue Hb.
  induction rounds as [|sensors_temperatures rounds IH]; intros m poll Hm;
    simpl; [constructor|].
  destruct (LightingManager._continue m); [|constructor].
  destruct (_main_loop_body_sink sensors_temperatures m poll Hm)
    as [Hsent Hnext].
  destruct (LightingManager._main_loop_body sensors_temperatures m poll)
    as [sent [[m' msec]|err]]; simpl in *; [|assumption].
  specialize (IH m' msec Hnext).
  destruct (LightingManager._main_loop_rounds rounds m' msec) as [sent' r].
  by apply Forall_app.
Qed.

End Sink.

(** C4, as the code has it: the values handed to [set_lighting] are the
    scaled values [int(i/100*brightness)], with no clamp.  When the hue
    function and the effect hold 8-bit colours and the brightness is in
    [0, 300], every value of every frame the worker loop hands to a device is
    in [0, 765], and in [0, 255] when the brightness is at most 100. *)
Theorem C4_sink_values_unclamped `{Colours}
    (rounds : list (gmap string (list shwtemp))) (m : LightingManager.t)
    (c : LightingController.t) :
  hue_colours →
  LightingManager._controller m = Some c →
  0 ≤ LightingController.brightness_level c ≤ 300 →
  effect_colours (LightingController.lighting_effect c) →
  Forall (λ frame : Device * list Z,
            Forall (λ v, 0 ≤ v ≤ 765
                         ∧ (LightingController.brightness_level c ≤ 100
                            → v ≤ 255)) frame.2)
    (LightingManager._main_loop rounds m).1.
Proof.
  intros Hhue Hc Hb Hcol.
  apply (_main_loop_rounds_sink (LightingController.brightness_level c)
           Hhue Hb rounds m 1).
  exists c. by repeat split.
Qed.

Lemma C4_sink_values_unclamped_witness :
  Forall (λ frame : Device * list Z,
            Forall (λ v, 0 ≤ v ≤ 765 ∧ (100 ≤ 100 → v ≤ 255)) frame.2)
    (LightingManager._main_loop (H := black) [∅; ∅]
       (running
          (LightingController.init (Static (StaticLightingEffect.init 255 0 0)))
          [{| num_leds := 2 |}])).1.
Proof.
  apply (C4_sink_values_unclamped (H := black) [∅; ∅]
           (running
              (LightingController.init
                 (Static (StaticLightingEffect.init 255 0 0)))
              [{| num_leds := 2 |}])
           (LightingController.init (Static (StaticLightingEffect.init 255 0 0)))).
  - intros a. unfold colour, channel. simpl. lia.
  - reflexivity.
  - simpl. lia.
  - unfold effect_colours, colour, channel. simpl. lia.
Defined.

(** C4 fails as stated: at brightness 300 a static effect of colour
    (100, 100, 100) makes the worker hand the frame [300; 300; 300] to the
    device, and 300 is not a value in [0, 255]. *)
Lemma C4_counterexample :
  LightingManager.set_brightness grey_manager 300 = Ok overdriven_manager
  ∧ (LightingManager._main_loop (H := black) [∅] overdriven_manager).1
    = [({| num_leds := 1 |}, [300; 300; 300])]
  ∧ ¬ Forall (λ frame : Device * list Z, Forall channel frame.2)
        (LightingManager._main_loop (H := black) [∅] overdriven_manager).1.
Proof.
  assert (Hsent : (LightingManager._main_loop (H := black) [∅]
                     overdriven_manager).1
                  = [({| num_leds := 1 |}, [300; 300; 300])])
    by (vm_compute; reflexivity).
  split; [reflexivity|]. split; [exact Hsent|]. rewrite Hsent. intros Hall.
  apply Forall_cons in Hall as [Hframe _]. simpl in Hframe.
  apply Forall_cons in Hframe as [H300 _]. unfold channel in H300. lia.
Qed.

(** ** The frame as a sequence of calls *)

(** The frame of a device of n LEDs is built by one [begin_dev] call followed
    by n [next()] calls; it is the concatenation of the n scaled triples, 3n
    values, and comes with the controller's interval. *)
Lemma main_for_calls `{Colours} sensors_temperatures (n : nat) :
  ∀ (self self' : LightingController.t) (data data' : list Z),
  LightingController.main_for n self data = Ok (data', self') →
  ∃ colours frames,
    run_calls sensors_temperatures (replicate n Next)
      (LightingController.lighting_effect self)
    = Ok (colours, LightingController.lighting_effect self')
    ∧ mapM (LightingController._brightness_processor self) colours = Ok frames
    ∧ data' = data ++ concat frames
    ∧ length colours = n
    ∧ LightingController.brightness_level self'
      = LightingController.brightness_level self
    ∧ LightingController.update_msec self'
      = LightingController.update_msec self.
Proof.
  induction n as [|n IH]; intros self self' data data'; simpl.
  - intros Heq. simplify_eq. exists [], []. simpl.
    by rewrite app_nil_r.
  - destruct (next (LightingController.lighting_effect self))
      as [[c e']|err] eqn:Hnext; simpl; [|discriminate].
    destruct (LightingController._brightness_processor _ c) as [px|err]
      eqn:Hpx; simpl; [|discriminate].
    intros Hfor.
    destruct (IH _ _ _ _ Hfor) as (colours & frames & Hrun & Hmap & Hd & Hlen
                                   & Hlevel & Hmsec).
    simpl in Hrun. exists (c :: colours), (px :: frames).
    rewrite Hrun. simpl.
    change (LightingController._brightness_processor self c)
      with (LightingController._brightness_processor
              (LightingController.set_lighting_effect self e') c).
    rewrite Hpx. simpl.
    change (mapM (LightingController._brightness_processor self) colours)
      with (mapM (LightingController._brightness_processor
                    (LightingController.set_lighting_effect self e')) colours).
    rewrite Hmap. simpl.
    split; [reflexivity|]. split; [reflexivity|].
    split; [by rewrite Hd, <- app_assoc|].
    split; [by rewrite Hlen|]. by split.
Qed.

Lemma frames_length (self : LightingController.t) (colours : list rgb) :
  ∀ frames,
  mapM (LightingController._brightness_processor self) colours = Ok frames →
  length (concat frames) = (3 * length colours)%nat.
Proof.
  induction colours as [|c colours IH]; intros frames; simpl.
  - intros [= <-]. reflexivity.
  - destruct (LightingController._brightness_processor _ c) as [px|]
      eqn:Hpx; simpl; [|discriminate].
    destruct (mapM _ colours) as [rest|]; simpl; [|discriminate].
    intros [= <-]. simpl.
    rewrite length_app, (_brightness_processor_length _ _ _ Hpx).
    rewrite (IH rest eq_refl). lia.
Qed.

Lemma main_calls `{Colours} sensors_temperatures
    (self self' : LightingController.t) (device : Device) data msec :
  LightingController.main self device = Ok (data, msec, self') →
  ∃ colours frames,
    run_calls sensors_temperatures
      (BeginDev :: replicate (Z.to_nat (num_leds device)) Next)
      (LightingController.lighting_effect self)
    = Ok (colours, LightingController.lighting_effect self')
    ∧ mapM (LightingController._brightness_processor self) colours = Ok frames
    ∧ data = concat frames
    ∧ length colours = Z.to_nat (num_leds device)
    ∧ length data = (3 * Z.to_nat (num_leds device))%nat
    ∧ msec = LightingController.update_msec self.
Proof.
  unfold LightingController.main.
  destruct (LightingController.main_for _ _ []) as [[data0 self0]|err]
    eqn:Hfor; simpl; [|discriminate].
  intros Heq. simplify_eq.
  destruct (main_for_calls sensors_temperatures _ _ _ _ _ Hfor)
    as (colours & frames & Hrun & Hmap & Hd & Hlen & Hlevel & Hmsec).
  exists colours, frames. simpl in *.
  split; [exact Hrun|]. split; [exact Hmap|]. split; [exact Hd|].
  split; [exact Hlen|]. split; [|exact Hmsec].
  by rewrite Hd, (frames_length _ _ _ Hmap), Hlen.
Qed.

(** At brightness 0 every value of the frame is 0, whatever the effect
    returns. *)
Lemma main_for_dark `{Colours} (n : nat) :
  ∀ (self self' : LightingController.t) (data data' : list Z),
  LightingController.brightness_level self = 0 →
  Forall (λ v, v = 0) data →
  LightingController.main_for n self data = Ok (data', self') →
  Forall (λ v, v = 0) data'.
Proof.
  induction n as [|n IH]; intros self self' data data' Hzero Hdata; simpl.
  - intros Heq. by simplify_eq.
  - destruct (next (LightingController.lighting_effect self))
      as [[c e']|err]; simpl; [|discriminate].
    rewrite _brightness_processor_zero by exact Hzero. simpl.
    apply IH; [exact Hzero|].
    apply Forall_app. split; [exact Hdata|].
    repeat (apply List.Forall_cons; [reflexivity|]). apply List.Forall_nil.
Qed.

Lemma main_dark `{Colours} (self self' : LightingController.t)
    (device : Device) data msec :
  LightingController.brightness_level self = 0 →
  LightingController.main self device = Ok (data, msec, self') →
  Forall (λ v, v = 0) data.
Proof.
  intros Hzero. unfold LightingController.main.
  destruct (LightingController.main_for _ _ []) as [[data0 self0]|err]
    eqn:Hfor; simpl; [|discriminate].
  intros Heq. simplify_eq.
  eapply main_for_dark; [| |exact Hfor]; [exact Hzero | constructor].
Qed.

(** The channel values that brightness 100 changes: each comes out one
    less. *)
Lemma brightness_100_changes :
  List.filter (scale_changes 100) (seqZ 0 256)
  = [29; 57; 58; 113; 114; 115; 116; 201; 203; 205; 207; 226; 228; 230; 232;
     251; 253; 255].
Proof. vm_compute. reflexivity. Qed.

(** * Further properties of the code *)

(** ** Effects that show one colour *)

(** X1: a static effect answers every [next()] call of any sequence of calls
    with its colour as (G,R,B), and its state never changes. *)
Theorem X1_static_constant `{Colours}
    (sensors_temperatures : gmap string (list shwtemp))
    (calls : list call) (s : StaticLightingEffect.t) :
  run_calls sensors_temperatures calls (Static s)
  = Ok (replicate (count_next calls)
          (StaticLightingEffect.g s, StaticLightingEffect.r s,
           StaticLightingEffect.b s),
        Static s).
Proof.
  induction calls as [|[] calls IH]; simpl; try exact IH; [reflexivity|].
  rewrite IH. reflexivity.
Qed.

(** X2: between two [begin_all] calls the temperature effect answers every
    [next()] call with the hue of its stored angle, so all LEDs of all devices
    of a round show one colour; the calls change nothing in the effect. *)
Theorem X2_temperature_uniform `{Colours}
    (sensors_temperatures : gmap string (list shwtemp))
    (calls : list call) (t : TemperatureLightingEffect.t) :
  Forall (λ c, c ≠ BeginAll) calls →
  run_calls sensors_temperatures calls (Temperature t)
  = Ok (replicate (count_next calls)
          (compass_to_rgb (TemperatureLightingEffect.angle t)),
        Temperature t).
Proof.
  induction calls as [|c calls IH]; intros Hcalls; [reflexivity|].
  apply Forall_cons in Hcalls as [Hc Hcalls]. specialize (IH Hcalls).
  destruct c; simpl; [exact IH | congruence |].
  rewrite IH. reflexivity.
Qed.

Lemma X2_temperature_uniform_witness :
  run_calls (H := black) ∅ [BeginDev; Next; Next; BeginDev; Next]
    (Temperature default_temperature)
  = Ok ([(0, 0, 0); (0, 0, 0); (0, 0, 0)], Temperature default_temperature).
Proof.
  apply (X2_temperature_uniform (H := black) ∅
           [BeginDev; Next; Next; BeginDev; Next] default_temperature).
  repeat (apply List.Forall_cons; [discriminate|]). apply List.Forall_nil.
Defined.

(** X3: an alternating effect is built exactly from two sequences of three
    values each; with any other length the unpacking raises [ValueError], and
    a built effect starts with the odd colour. *)
Theorem X3_alternating_init (even odd : list Z) :
  ((∃ a, AlternatingLightingEffect.init even odd = Ok a)
   ↔ length even = 3%nat ∧ length odd = 3%nat)
  ∧ (AlternatingLightingEffect.init even odd = Raise ValueError
     ↔ ¬ (length even = 3%nat ∧ length odd = 3%nat))
  ∧ (∀ a, AlternatingLightingEffect.init even odd = Ok a →
          AlternatingLightingEffect.odd a = true).
Proof.
  unfold AlternatingLightingEffect.init, AlternatingLightingEffect.unpack3.
  destruct even as [|e1 [|e2 [|e3 [|e4 even]]]];
    destruct odd as [|o1 [|o2 [|o3 [|o4 odd]]]]; simpl;
    (split; [|split]);
    try (split; [intros [a Ha]; discriminate | intros [? ?]; discriminate]);
    try (split; [intros _; intros [? ?]; discriminate | reflexivity]);
    try (intros a Ha; discriminate).
  - split; [auto | intros _; eexists; reflexivity].
  - split; [discriminate | intros Hno; exfalso; apply Hno; auto].
  - intros a [= <-]. reflexivity.
Qed.

(** ** Frames *)

Lemma next_steady `{Colours} (e : LightingEffect) :
  steady e → ∃ c e', next e = Ok (c, e') ∧ steady e'.
Proof.
  destruct e as [s|a|s|s|t]; simpl; intros Hsteady; try contradiction.
  - by eexists _, _.
  - destruct (AlternatingLightingEffect.next a) as [c a'].
    by exists c, (Alternating a').
  - by eexists _, _.
Qed.

Lemma main_for_steady `{Colours} (b : Z) (n : nat) :
  hue_colours → 0 ≤ b ≤ 300 →
  ∀ (self : LightingController.t) (data : list Z),
  ctrl_ok b self → steady (LightingController.lighting_effect self) →
  ∃ data' self', LightingController.main_for n self data = Ok (data', self')
                 ∧ steady (LightingController.lighting_effect self').
Proof.
  intros Hhue Hb. induction n as [|n IH]; intros self data Hok Hsteady; simpl.
  - by exists data, self.
  - destruct (next_steady _ Hsteady) as (c & e' & Hnext & Hsteady').
    rewrite Hnext. simpl. destruct Hok as [Hlevel Hcol].
    destruct (next_colours _ _ _ Hhue Hnext Hcol) as [Hc He'].
    destruct (_brightness_processor_sink
                (LightingController.set_lighting_effect self e') c)
      as (px & Hpx & _); [simpl; lia | assumption |].
    rewrite Hpx. simpl. apply IH; [by split | assumption].
Qed.

(** X4: for a static, alternating or temperature effect holding 8-bit colours
    and a brightness in [0, 300], the controller always produces a frame: no
    exception, 3 values per LED, each one a value the brightness allows, and
    the controller's interval with it. *)
Theorem X4_frame_produced `{Colours} (self : LightingController.t)
    (device : Device) :
  hue_colours →
  0 ≤ LightingController.brightness_level self ≤ 300 →
  effect_colours (LightingController.lighting_effect self) →
  steady (LightingController.lighting_effect self) →
  ∃ data self',
    LightingController.main self device
    = Ok (data, LightingController.update_msec self, self')
    ∧ length data = (3 * Z.to_nat (num_leds device))%nat
    ∧ Forall (sink_value (LightingController.brightness_level self)) data.
Proof.
  intros Hhue Hb Hcol Hsteady.
  assert (Hok : ctrl_ok (LightingController.brightness_level self) self)
    by (by split).
  pose proof (main_sink _ Hhue Hb self device Hok) as Hsink.
  unfold LightingController.main in *.
  destruct (main_for_steady (LightingController.brightness_level self)
              (Z.to_nat (num_leds device)) Hhue Hb
              (LightingController.set_lighting_effect self
                 (begin_dev (LightingController.lighting_effect self))) [])
    as (data & self' & Hfor & _).
  - split; [reflexivity|]. simpl. by apply begin_dev_colours.
  - simpl. by destruct (LightingController.lighting_effect self).
  - rewrite Hfor in *. simpl in *.
    destruct Hsink as (Hdata & _ & Hmsec & Hlen).
    exists data, self'. rewrite Hmsec. by repeat split.
Qed.

Lemma X4_frame_produced_witness :
  ∃ data self',
    LightingController.main (H := black)
      (LightingController.init (Static (StaticLightingEffect.init 255 0 0)))
      {| num_leds := 2 |}
    = Ok (data, 100, self')
    ∧ length data = 6%nat
    ∧ Forall (sink_value 100) data.
Proof.
  apply (X4_frame_produced (H := black)
           (LightingController.init (Static (StaticLightingEffect.init 255 0 0)))
           {| num_leds := 2 |}).
  - intros a. unfold colour, channel. simpl. lia.
  - simpl. lia.
  - unfold effect_colours, colour, channel. simpl. lia.
  - exact I.
Defined.

(** X5: whenever the controller returns a frame for a device of n LEDs, the
    frame is what one [begin_dev] call followed by n [next()] calls returned,
    each colour scaled by the brightness, concatenated in order (3n values);
    the interval is the controller's, and the effect is left as those calls
    leave it. *)
Theorem X5_frame_is_scaled_calls `{Colours}
    (sensors_temperatures : gmap string (list shwtemp))
    (self self' : LightingController.t) (device : Device)
    (data : list Z) (msec : Z) :
  LightingController.main self device = Ok (data, msec, self') →
  ∃ colours frames,
    run_calls sensors_temperatures
      (BeginDev :: replicate (Z.to_nat (num_leds device)) Next)
      (LightingController.lighting_effect self)
    = Ok (colours, LightingController.lighting_effect self')
    ∧ mapM (LightingController._brightness_processor self) colours = Ok frames
    ∧ data = concat frames
    ∧ length colours = Z.to_nat (num_leds device)
    ∧ length data = (3 * Z.to_nat (num_leds device))%nat
    ∧ msec = LightingController.update_msec self.
Proof. apply main_calls. Qed.

Lemma X5_frame_is_scaled_calls_witness :
  ∃ colours frames,
    run_calls (H := black) ∅ (BeginDev :: replicate (Z.to_nat 2) Next)
      (Static (StaticLightingEffect.init 255 0 0))
    = Ok (colours, Static (StaticLightingEffect.init 255 0 0))
    ∧ mapM (LightingController._brightness_processor
              (LightingController.set_brightness_level
                 (LightingController.init
                    (Static (StaticLightingEffect.init 255 0 0))) 50))
        colours = Ok frames
    ∧ [0; 127; 0; 0; 127; 0] = concat frames
    ∧ length colours = Z.to_nat 2
    ∧ length [0; 127; 0; 0; 127; 0] = (3 * Z.to_nat 2)%nat
    ∧ 100 = 100.
Proof.
  apply (X5_frame_is_scaled_calls (H := black) ∅
           (LightingController.set_brightness_level
              (LightingController.init
                 (Static (StaticLightingEffect.init 255 0 0))) 50)
           (LightingController.set_brightness_level
              (LightingController.init
                 (Static (StaticLightingEffect.init 255 0 0))) 50)
           {| num_leds := 2 |} [0; 127; 0; 0; 127; 0] 100).
  vm_compute. reflexivity.
Defined.

(** X6: at brightness 0 every frame the controller returns is all zeros,
    3 per LED, whatever the effect returned. *)
Theorem X6_dark_frame `{Colours} (self self' : LightingController.t)
    (device : Device) (data : list Z) (msec : Z) :
  LightingController.brightness_level self = 0 →
  LightingController.main self device = Ok (data, msec, self') →
  data = replicate (3 * Z.to_nat (num_leds device)) 0.
Proof.
  intros Hzero Hmain.
  pose proof (main_dark _ _ _ _ _ Hzero Hmain) as Hall.
  destruct (main_calls ∅ _ _ _ _ _ Hmain)
    as (colours & frames & _ & _ & _ & _ & Hlen & _).
  rewrite <- Hlen. clear Hlen Hmain colours frames.
  induction Hall as [|v data -> _ IH]; [reflexivity|].
  simpl. by rewrite <- IH.
Qed.

Lemma X6_dark_frame_witness :
  [0; 0; 0; 0; 0; 0] = replicate (3 * Z.to_nat 2) 0.
Proof.
  apply (X6_dark_frame (H := black)
           (LightingController.set_brightness_level
              (LightingController.init
                 (Static (StaticLightingEffect.init 255 9 7))) 0)
           (LightingController.set_brightness_level
              (LightingController.init
                 (Static (StaticLightingEffect.init 255 9 7))) 0)
           {| num_leds := 2 |} [0; 0; 0; 0; 0; 0] 100); reflexivity.
Defined.

(** ** Scaling *)

(** X7: for a channel value i in [0, 255] and a brightness b in [0, 300] the
    scaled value [int(i/100*b)] is computed without exception; it is not
    negative, and it is floor(i*b/100) or one less. *)
Theorem X7_scale_floor_or_one_less (b i : Z) :
  0 ≤ b ≤ 300 → 0 ≤ i ≤ 255 →
  ∃ v, LightingController.scale b i = Ok v
       ∧ 0 ≤ v ∧ (v = i * b / 100 ∨ v = i * b / 100 - 1).
Proof.
  intros Hb Hi. destruct (scale_range b i Hb Hi) as (v & Hv & Hpos & Hnear).
  exists v. split; [exact Hv|]. split; [exact Hpos | lia].
Qed.

Lemma X7_scale_floor_or_one_less_witness :
  ∃ v, LightingController.scale 50 255 = Ok v
       ∧ 0 ≤ v ∧ (v = 255 * 50 / 100 ∨ v = 255 * 50 / 100 - 1).
Proof. apply (X7_scale_floor_or_one_less 50 255); lia. Defined.

(** X8: with a brightness of at most 100 no channel comes out brighter than
    it went in, and at every brightness a channel of 0 stays 0. *)
Theorem X8_dimming_never_brightens (b i : Z) :
  0 ≤ b ≤ 300 → 0 ≤ i ≤ 255 →
  ∃ v, LightingController.scale b i = Ok v
       ∧ (b ≤ 100 → v ≤ i) ∧ (i = 0 → v = 0).
Proof.
  intros Hb Hi. destruct (scale_range b i Hb Hi) as (v & Hv & Hpos & Hnear).
  exists v. split; [exact Hv|]. split.
  - intros Hdim.
    assert (i * b / 100 ≤ i) by (apply Z.div_le_upper_bound; nia). lia.
  - intros Hzero. subst i. rewrite Z.mul_0_l, Z.div_0_l in Hnear; lia.
Qed.

Lemma X8_dimming_never_brightens_witness :
  ∃ v, LightingController.scale 100 29 = Ok v
       ∧ (100 ≤ 100 → v ≤ 29) ∧ (29 = 0 → v = 0).
Proof. apply (X8_dimming_never_brightens 100 29); lia. Defined.

(** ** The temperature effect's branches *)

Lemma pow2_pos (e : Z) : 0 ≤ e → 0 < 2 ^ e.
Proof. intros He. by apply Z.pow_pos_nonneg. Qed.

Lemma cmp_above (u w u' w' : Z) :
  Some (u ?= w) = Some Gt ∨ Some (u ?= w) = Some Eq →
  (w < u ∨ u = w → w' < u') →
  Some (u' ?= w') = Some Gt.
Proof.
  intros Hcmp Himp. f_equal. apply Z.compare_gt_iff, Himp.
  destruct Hcmp as [Hcmp|Hcmp];
    [left; apply Z.compare_gt_iff | right; apply Z.compare_eq_iff];
    congruence.
Qed.

(** A float above an int is above every smaller int, and a float equal to an
    int is above every smaller int. *)
Lemma SF_compare_Z_above (x : spec_float) (a b : Z) :
  SF_compare_Z x a = Some Gt ∨ SF_compare_Z x a = Some Eq →
  b < a → SF_compare_Z x b = Some Gt.
Proof.
  intros Hcmp Hlt.
  destruct x as [s|[]| |s m e]; unfold SF_compare_Z in *;
    cbv beta iota zeta in *.
  - apply (cmp_above _ _ _ _ Hcmp). lia.
  - by destruct Hcmp.
  - reflexivity.
  - by destruct Hcmp.
  - set (v := if s then Z.neg m else Z.pos m) in *.
    destruct (Z.leb_spec 0 e) as [He|He].
    + apply (cmp_above _ _ _ _ Hcmp). lia.
    + pose proof (pow2_pos (- e) ltac:(lia)) as Hpow.
      apply (cmp_above _ _ _ _ Hcmp). nia.
Qed.

Lemma compare_above (f : float) (a b : Z) :
  gt (Float f) (Int a) = true ∨ eq (Float f) (Int a) = true →
  b < a →
  le (Float f) (Int b) = false ∧ lt (Float f) (Int b) = false
  ∧ eq (Float f) (Int b) = false ∧ gt (Float f) (Int b) = true.
Proof.
  intros Hcmp Hlt. unfold gt, eq, le, lt, compare in *.
  rewrite (SF_compare_Z_above (Prim2SF f) a b); [auto | | exact Hlt].
  destruct (SF_compare_Z (Prim2SF f) a) as [[]|]; destruct Hcmp; auto;
    discriminate.
Qed.

Lemma read_current_first (sensors_temperatures : gmap string (list shwtemp))
    (name : string) (x : shwtemp) (rest : list shwtemp) :
  sensors_temperatures !! name = Some (x :: rest) →
  TemperatureLightingEffect.read_current sensors_temperatures name
  = Ok (Float (current x)).
Proof.
  unfold TemperatureLightingEffect.read_current. intros ->. reflexivity.
Qed.

(** X9: when the thresholds are ordered, cold < target <= hot, a reading at
    or below cold sets the cold angle, a reading equal to target sets the
    target angle, and a reading above hot sets the hot angle; in each case the
    reading is stored as the current temperature. *)
Theorem X9_temperature_thresholds
    (sensors_temperatures : gmap string (list shwtemp))
    (t : TemperatureLightingEffect.t) (x : shwtemp) (rest : list shwtemp) :
  sensors_temperatures !! TemperatureLightingEffect.sensor_name t
  = Some (x :: rest) →
  TemperatureLightingEffect.cold t < TemperatureLightingEffect.target t →
  TemperatureLightingEffect.target t ≤ TemperatureLightingEffect.hot t →
  let cur := Float (current x) in
  let stored := TemperatureLightingEffect.set_cur_temp t cur in
  (le cur (Int (TemperatureLightingEffect.cold t)) = true →
   TemperatureLightingEffect.begin_all sensors_temperatures t
   = Ok (TemperatureLightingEffect.set_angle stored
           (Int (TemperatureLightingEffect.cold_angle t))))
  ∧ (eq cur (Int (TemperatureLightingEffect.target t)) = true →
     TemperatureLightingEffect.begin_all sensors_temperatures t
     = Ok (TemperatureLightingEffect.set_angle stored
             (Int (TemperatureLightingEffect.target_angle t))))
  ∧ (gt cur (Int (TemperatureLightingEffect.hot t)) = true →
     TemperatureLightingEffect.begin_all sensors_temperatures t
     = Ok (TemperatureLightingEffect.set_angle stored
             (Int (TemperatureLightingEffect.hot_angle t)))).
Proof.
  intros Hread Hcold Hhot cur stored.
  unfold TemperatureLightingEffect.begin_all.
  rewrite (read_current_first _ _ _ _ Hread). simpl.
  fold cur. split; [|split].
  - by intros ->.
  - intros Heq.
    destruct (compare_above (current x) _ _ (or_intror Heq) Hcold)
      as (Hle & _ & _ & _).
    fold cur in Hle. rewrite Hle, Heq.
    replace (lt cur (Int (TemperatureLightingEffect.target t))) with false;
      [reflexivity|].
    unfold eq, lt in *.
    by destruct (compare cur (Int (TemperatureLightingEffect.target t)))
      as [[]|].
  - intros Hgt.
    assert (Htarget : le cur (Int (TemperatureLightingEffect.target t)) = false
                      ∧ lt cur (Int (TemperatureLightingEffect.target t)) = false
                      ∧ eq cur (Int (TemperatureLightingEffect.target t)) = false).
    { destruct (Z.eq_dec (TemperatureLightingEffect.target t)
                  (TemperatureLightingEffect.hot t)) as [Hsame|Hdiff].
      - rewrite Hsame. unfold gt, le, lt, eq in *.
        by destruct (compare cur (Int (TemperatureLightingEffect.hot t)))
          as [[]|].
      - destruct (compare_above (current x) _
                    (TemperatureLightingEffect.target t) (or_introl Hgt))
          as (? & ? & ? & _); [lia | auto]. }
    destruct Htarget as (_ & Hlt & Heq).
    destruct (compare_above (current x) _ (TemperatureLightingEffect.cold t)
                (or_introl Hgt)) as (Hle & _ & _ & _); [lia|].
    fold cur in Hle, Hlt, Heq. by rewrite Hle, Hlt, Heq, Hgt.
Qed.

Lemma X9_temperature_thresholds_witness :
  (le (Float 30) (Int 20) = true →
   TemperatureLightingEffect.begin_all (one_sensor "cpu" 30) default_temperature
   = Ok (TemperatureLightingEffect.set_angle
           (TemperatureLightingEffect.set_cur_temp default_temperature
              (Float 30)) (Int 240)))
  ∧ (eq (Float 30) (Int 30) = true →
     TemperatureLightingEffect.begin_all (one_sensor "cpu" 30)
       default_temperature
     = Ok (TemperatureLightingEffect.set_angle
             (TemperatureLightingEffect.set_cur_temp default_temperature
                (Float 30)) (Int 120)))
  ∧ (gt (Float 30) (Int 60) = true →
     TemperatureLightingEffect.begin_all (one_sensor "cpu" 30)
       default_temperature
     = Ok (TemperatureLightingEffect.set_angle
             (TemperatureLightingEffect.set_cur_temp default_temperature
                (Float 30)) (Int 0))).
Proof.
  apply (X9_temperature_thresholds (one_sensor "cpu" 30) default_temperature
           (reading 30) []); [reflexivity | simpl; lia | simpl; lia].
Defined.

(** X10: a reading that is not a number passes none of the comparisons: it
    is stored as the current temperature and the angle stays as it was. *)
Theorem X10_temperature_nan_keeps_angle
    (sensors_temperatures : gmap string (list shwtemp))
    (t : TemperatureLightingEffect.t) (x : shwtemp) (rest : list shwtemp) :
  sensors_temperatures !! TemperatureLightingEffect.sensor_name t
  = Some (x :: rest) →
  current x = nan →
  TemperatureLightingEffect.begin_all sensors_temperatures t
  = Ok (TemperatureLightingEffect.set_cur_temp t (Float nan)).
Proof.
  intros Hread Hnan. unfold TemperatureLightingEffect.begin_all.
  rewrite (read_current_first _ _ _ _ Hread), Hnan. reflexivity.
Qed.

Lemma X10_temperature_nan_keeps_angle_witness :
  TemperatureLightingEffect.begin_all (one_sensor "cpu" nan) default_temperature
  = Ok (TemperatureLightingEffect.set_cur_temp default_temperature (Float nan)).
Proof.
  apply (X10_temperature_nan_keeps_angle (one_sensor "cpu" nan)
           default_temperature (reading nan) []); reflexivity.
Defined.

(** X11: the effect reads the first reading of its own sensor only: further
    readings of that sensor and the other sensors do not matter. *)
Theorem X11_temperature_first_reading
    (sensors_temperatures : gmap string (list shwtemp))
    (t : TemperatureLightingEffect.t) (x : shwtemp) (rest : list shwtemp) :
  sensors_temperatures !! TemperatureLightingEffect.sensor_name t
  = Some (x :: rest) →
  TemperatureLightingEffect.begin_all sensors_temperatures t
  = TemperatureLightingEffect.begin_all
      (one_sensor (TemperatureLightingEffect.sensor_name t) (current x)) t.
Proof.
  intros Hread. unfold TemperatureLightingEffect.begin_all.
  rewrite (read_current_first _ _ _ _ Hread).
  rewrite (read_current_first _ _ (reading (current x)) []); [reflexivity|].
  unfold one_sensor. apply lookup_singleton_eq.
Qed.

Lemma X11_temperature_first_reading_witness :
  TemperatureLightingEffect.begin_all
    (<["gpu" := [reading 80]]> {[ "cpu" := [reading 25; reading 90] ]})
    default_temperature
  = TemperatureLightingEffect.begin_all (one_sensor "cpu" 25)
      default_temperature.
Proof.
  apply (X11_temperature_first_reading
           (<["gpu" := [reading 80]]> {[ "cpu" := [reading 25; reading 90] ]})
           default_temperature (reading 25) [reading 90]).
  vm_compute. reflexivity.
Defined.

(** ** What the temperature effect can raise *)

Lemma bind_raise {A B} (r : result A) (k : A → result B) (err : exn) :
  r ≫= k = Raise err →
  r = Raise err ∨ ∃ a, r = Ok a ∧ k a = Raise err.
Proof.
  destruct r as [a|e]; simpl; intros Hk.
  - right. exists a. split; [reflexivity | exact Hk].
  - left. injection Hk as ->. reflexivity.
Qed.

Lemma float_of_int_raise (z : Z) (err : exn) :
  float_of_int z = Raise err → err = OverflowError.
Proof.
  unfold float_of_int.
  destruct (binary_normalize prec emax z 0 false); congruence.
Qed.

Lemma arith_raise fz ff (x y : num) (err : exn) :
  arith fz ff x y = Raise err → err = OverflowError.
Proof.
  destruct x as [a|f], y as [b|g]; simpl; try discriminate;
    match goal with
    | |- context [float_of_int ?z] => destruct (float_of_int z) eqn:Hconv
    end; simpl; try discriminate;
    intros [= <-]; by eapply float_of_int_raise.
Qed.

Lemma truediv_ints_raise (a b : Z) (err : exn) :
  b ≠ 0 → truediv (Int a) (Int b) = Raise err → err = OverflowError.
Proof.
  intros Hb. unfold truediv. destruct (Z.eqb_spec b 0); [contradiction|].
  destruct (SFdiv prec emax (Z2SF a) (Z2SF b)); congruence.
Qed.

(** A reading strictly between two thresholds tells them apart. *)
Lemma between_distinct (cur : num) (a b : Z) :
  le cur (Int a) = false → lt cur (Int b) = true → b - a ≠ 0.
Proof.
  intros Hle Hlt Hsame. assert (b = a) as -> by lia.
  unfold le, lt in *. by destruct (compare cur (Int a)) as [[]|].
Qed.

Lemma above_distinct (cur : num) (a b : Z) :
  gt cur (Int b) = false → gt cur (Int a) = true → b - a ≠ 0.
Proof.
  intros Hhot Htarget Hsame. assert (b = a) as -> by lia. congruence.
Qed.

#[local] Arguments truediv : simpl never.
#[local] Arguments sub : simpl never.
#[local] Arguments mul : simpl never.
#[local] Arguments add : simpl never.

(** X12: [begin_all] of the temperature effect raises in three cases only:
    [TypeError] when the sensor name is unknown, [IndexError] when the sensor
    has an empty list of readings, and [OverflowError] when a threshold is too
    large for a float.  The two divisions never divide by zero, whatever the
    thresholds are: each is guarded by the comparisons before it. *)
Theorem X12_temperature_errors
    (sensors_temperatures : gmap string (list shwtemp))
    (t : TemperatureLightingEffect.t) (err : exn) :
  TemperatureLightingEffect.begin_all sensors_temperatures t = Raise err →
  (err = TypeError
   ∧ sensors_temperatures !! TemperatureLightingEffect.sensor_name t = None)
  ∨ (err = IndexError
     ∧ sensors_temperatures !! TemperatureLightingEffect.sensor_name t
       = Some [])
  ∨ err = OverflowError.
Proof.
  unfold TemperatureLightingEffect.begin_all,
    TemperatureLightingEffect.read_current.
  destruct (sensors_temperatures !! TemperatureLightingEffect.sensor_name t)
    as [[|x rest]|]; simpl.
  - intros [= <-]. right. left. by split.
  - set (cur := Float (current x)). intros Hraise. right. right.
    destruct (le cur _) eqn:Hle; [discriminate|].
    destruct (lt cur _) eqn:Hlt.
    { apply bind_raise in Hraise as [Hdiv|(slope & _ & Hraise)].
      - eapply truediv_ints_raise; [|exact Hdiv].
        by eapply between_distinct.
      - apply bind_raise in Hraise as [Hsub|(below & _ & Hraise)];
          [by eapply arith_raise|].
        apply bind_raise in Hraise as [Hmul|(a & _ & Hraise)];
          [by eapply arith_raise | discriminate]. }
    destruct (eq cur _); [discriminate|].
    destruct (gt cur (Int (TemperatureLightingEffect.hot _))) eqn:Hhot;
      [discriminate|].
    destruct (gt cur (Int (TemperatureLightingEffect.target _))) eqn:Htarget;
      [|discriminate].
    apply bind_raise in Hraise as [Hdiv|(slope & _ & Hraise)].
    + eapply truediv_ints_raise; [|exact Hdiv]. by eapply above_distinct.
    + apply bind_raise in Hraise as [Hsub|(above & _ & Hraise)];
        [by eapply arith_raise|].
      apply bind_raise in Hraise as [Hmul|(drop & _ & Hraise)];
        [by eapply arith_raise|].
      apply bind_raise in Hraise as [Hsub|(a & _ & Hraise)];
        [by eapply arith_raise | discriminate].
  - intros [= <-]. left. by split.
Qed.

Lemma X12_temperature_errors_witness :
  (IndexError = TypeError ∧ ({[ "cpu" := [] ]} : gmap string (list shwtemp))
                            !! "cpu" = None)
  ∨ (IndexError = IndexError
     ∧ ({[ "cpu" := [] ]} : gmap string (list shwtemp)) !! "cpu" = Some [])
  ∨ IndexError = OverflowError.
Proof.
  apply (X12_temperature_errors {[ "cpu" := [] ]} default_temperature
           IndexError).
  reflexivity.
Defined.

(** ** The RGB spectrum *)

Lemma step_30 : truediv (Int 360) (Int 12) = Ok (Float 30).
Proof. vm_compute. reflexivity. Qed.

Lemma index_table_ok : forallb index_check (seqZ 0 1025) = true.
Proof. vm_compute. reflexivity. Qed.

Lemma index_exact (k : Z) :
  0 ≤ k ≤ 1024 → mul (Float 30) (Int k) ≫= int = Ok (30 * k).
Proof.
  intros Hk.
  pose proof (forallb_seqZ _ 0 1025 k index_table_ok ltac:(lia)) as Hcheck.
  unfold index_check in Hcheck.
  destruct (mul (Float 30) (Int k) ≫= int) as [v|]; [|discriminate].
  apply Z.eqb_eq in Hcheck. by subst v.
Qed.

Lemma spectrum_next (k : Z) (table : list rgb) :
  0 ≤ k < 1024 →
  RGBSpectrumLightingEffect.next
    {| RGBSpectrumLightingEffect.num_iters := k;
       RGBSpectrumLightingEffect.compass_to_rgb_map := table |}
  = c ← getitem table (30 * (k + 1));
    Ok (c, {| RGBSpectrumLightingEffect.num_iters := k + 1;
              RGBSpectrumLightingEffect.compass_to_rgb_map := table |}).
Proof.
  intros Hk. unfold RGBSpectrumLightingEffect.next. rewrite step_30.
  cbn [mbind result_bind RGBSpectrumLightingEffect.num_iters
       RGBSpectrumLightingEffect.compass_to_rgb_map].
  pose proof (index_exact (k + 1) ltac:(lia)) as Hindex.
  destruct (mul (Float 30) (Int (k + 1))) as [pos|]; [|discriminate].
  cbn [mbind result_bind] in *. rewrite Hindex. reflexivity.
Qed.

Lemma spectrum_table_lookup `{Colours} (i : Z) :
  0 ≤ i →
  length (RGBSpectrumLightingEffect.compass_to_rgb_map
            RGBSpectrumLightingEffect.init) = 360%nat
  ∧ getitem (RGBSpectrumLightingEffect.compass_to_rgb_map
               RGBSpectrumLightingEffect.init) i
    = if i <? 360 then Ok (compass_to_rgb (Int i)) else Raise IndexError.
Proof.
  intros Hi.
  assert (Hlen : length (RGBSpectrumLightingEffect.compass_to_rgb_map
                           RGBSpectrumLightingEffect.init) = 360%nat).
  { unfold RGBSpectrumLightingEffect.init,
      RGBSpectrumLightingEffect.compass_to_rgb_map.
    by rewrite length_fmap, length_seqZ. }
  split; [exact Hlen|]. unfold getitem. rewrite Hlen.
  destruct (Z.ltb_spec i 0); [lia|].
  destruct (Z.leb_spec 0 i); [|lia].
  change (Z.of_nat 360) with 360.
  destruct (Z.ltb_spec i 360); [|reflexivity].
  cbn [andb]. unfold RGBSpectrumLightingEffect.init,
    RGBSpectrumLightingEffect.compass_to_rgb_map.
  rewrite list_lookup_fmap, lookup_seqZ_lt by lia. simpl.
  do 3 f_equal. lia.
Qed.

(** X13: the table of the RGB spectrum has 360 entries, entry i is the hue
    of the angle i, and an index of 360 or more raises [IndexError]. *)
Theorem X13_spectrum_table `{Colours} (i : Z) :
  0 ≤ i →
  length (RGBSpectrumLightingEffect.compass_to_rgb_map
            RGBSpectrumLightingEffect.init) = 360%nat
  ∧ getitem (RGBSpectrumLightingEffect.compass_to_rgb_map
               RGBSpectrumLightingEffect.init) i
    = if i <? 360 then Ok (compass_to_rgb (Int i)) else Raise IndexError.
Proof. apply spectrum_table_lookup. Qed.

Lemma X13_spectrum_table_witness :
  length (RGBSpectrumLightingEffect.compass_to_rgb_map
            (RGBSpectrumLightingEffect.init (H := black))) = 360%nat
  ∧ getitem (RGBSpectrumLightingEffect.compass_to_rgb_map
               (RGBSpectrumLightingEffect.init (H := black))) 360
    = Raise IndexError.
Proof. apply (X13_spectrum_table (H := black) 360). lia. Defined.

Lemma spectrum_nexts `{Colours} sensors_temperatures (n : nat) :
  ∀ k : Z, 0 ≤ k → k + Z.of_nat n ≤ 11 →
  run_calls sensors_temperatures (replicate n Next) (RGBSpectrum (spectrum_at k))
  = Ok ((λ j, compass_to_rgb (Int (30 * j))) <$> seqZ (k + 1) (Z.of_nat n),
        RGBSpectrum (spectrum_at (k + Z.of_nat n))).
Proof.
  induction n as [|n IH]; intros k Hk Hn.
  - simpl. by rewrite Z.add_0_r.
  - cbn [replicate run_calls next]. unfold spectrum_at at 1.
    rewrite spectrum_next by lia.
    destruct (spectrum_table_lookup (30 * (k + 1)) ltac:(lia)) as [_ ->].
    destruct (Z.ltb_spec (30 * (k + 1)) 360); [|lia].
    cbn [mbind result_bind]. fold (spectrum_at (k + 1)).
    rewrite IH by lia. cbn [mbind result_bind].
    rewrite (seqZ_cons (k + 1)) by lia. rewrite fmap_cons.
    replace (k + Z.of_nat (S n)) with (k + 1 + Z.of_nat n) by lia.
    replace (Z.pred (Z.of_nat (S n))) with (Z.of_nat n) by lia.
    replace (Z.succ (k + 1)) with (k + 1 + 1) by lia.
    reflexivity.
Qed.

(** X14: on a device of at most 11 LEDs the RGB spectrum shows, LED by LED,
    the hues of the angles 30, 60, ..., 30*n, whatever its counter was before
    the frame: [begin_dev] resets it, and after the frame it is n. *)
Theorem X14_spectrum_frame `{Colours}
    (sensors_temperatures : gmap string (list shwtemp)) (n : nat) (k : Z) :
  (n ≤ 11)%nat →
  run_calls sensors_temperatures (BeginDev :: replicate n Next)
    (RGBSpectrum (spectrum_at k))
  = Ok ((λ j, compass_to_rgb (Int (30 * j))) <$> seqZ 1 (Z.of_nat n),
        RGBSpectrum (spectrum_at (Z.of_nat n))).
Proof.
  intros Hn. cbn [run_calls begin_dev].
  change (RGBSpectrumLightingEffect.begin_dev (spectrum_at k))
    with (spectrum_at 0).
  by rewrite spectrum_nexts by lia.
Qed.

Lemma X14_spectrum_frame_witness :
  run_calls (H := black) ∅ [BeginDev; Next; Next]
    (RGBSpectrum (spectrum_at (H := black) 7))
  = Ok ([(0, 0, 0); (0, 0, 0)], RGBSpectrum (spectrum_at (H := black) 2)).
Proof. apply (X14_spectrum_frame (H := black) ∅ 2 7). lia. Defined.

Lemma run_calls_app `{Colours} sensors_temperatures (calls calls' : list call) :
  ∀ e, run_calls sensors_temperatures (calls ++ calls') e
       = match run_calls sensors_temperatures calls e with
         | Ok (out, e') =>
             match run_calls sensors_temperatures calls' e' with
             | Ok (out', e'') => Ok (out ++ out', e'')
             | Raise err => Raise err
             end
         | Raise err => Raise err
         end.
Proof.
  induction calls as [|c calls IH]; intros e; simpl.
  - by destruct (run_calls sensors_temperatures calls' e) as [[out' e'']|].
  - destruct c; simpl.
    + apply IH.
    + destruct (begin_all sensors_temperatures e) as [e'|]; simpl;
        [apply IH | reflexivity].
    + destruct (next e) as [[c e']|]; simpl; [|reflexivity].
      rewrite IH.
      destruct (run_calls sensors_temperatures calls e') as [[out e'']|];
        simpl; [|reflexivity].
      by destruct (run_calls sensors_temperatures calls' e'')
        as [[out' e''']|].
Qed.

(** X15: on a device of 12 or more LEDs the RGB spectrum never completes a
    frame: the twelfth [next()] call raises [IndexError], so the controller's
    frame raises as well, whatever the brightness is. *)
Theorem X15_spectrum_needs_fewer_than_12 `{Colours}
    (sensors_temperatures : gmap string (list shwtemp))
    (self : LightingController.t) (device : Device) (k : Z) :
  12 ≤ num_leds device →
  LightingController.lighting_effect self = RGBSpectrum (spectrum_at k) →
  run_calls sensors_temperatures
    (BeginDev :: replicate (Z.to_nat (num_leds device)) Next)
    (RGBSpectrum (spectrum_at k))
  = Raise IndexError
  ∧ raises (LightingController.main self device).
Proof.
  intros Hleds Heffect.
  assert (Hrun : run_calls sensors_temperatures
                   (BeginDev :: replicate (Z.to_nat (num_leds device)) Next)
                   (RGBSpectrum (spectrum_at k)) = Raise IndexError).
  { replace (Z.to_nat (num_leds device))
      with (11 + S (Z.to_nat (num_leds device) - 12))%nat by lia.
    rewrite replicate_add. cbn [run_calls begin_dev].
    change (RGBSpectrumLightingEffect.begin_dev (spectrum_at k))
      with (spectrum_at 0).
    rewrite run_calls_app, spectrum_nexts by lia.
    cbn [replicate run_calls next]. unfold spectrum_at at 1.
    rewrite spectrum_next by lia.
    destruct (spectrum_table_lookup (30 * (0 + Z.of_nat 11 + 1)) ltac:(lia))
      as [_ ->].
    reflexivity. }
  split; [exact Hrun|].
  apply (main_raises sensors_temperatures). rewrite Heffect, Hrun.
  by eexists.
Qed.

Lemma X15_spectrum_needs_fewer_than_12_witness :
  run_calls (H := black) ∅ (BeginDev :: replicate (Z.to_nat 30) Next)
    (RGBSpectrum (spectrum_at (H := black) 0))
  = Raise IndexError
  ∧ raises (LightingController.main (H := black)
              (LightingController.init
                 (RGBSpectrum (spectrum_at (H := black) 0)))
              {| num_leds := 30 |}).
Proof.
  apply (X15_spectrum_needs_fewer_than_12 (H := black) ∅
           (LightingController.init (RGBSpectrum (spectrum_at (H := black) 0)))
           {| num_leds := 30 |} 0); [simpl; lia | reflexivity].
Defined.

(** ** The spinning spectrum's frame *)

Lemma spinning_nexts `{Colours} sensors_temperatures (table : list rgb)
    (rot : Z) (n : nat) :
  1 ≤ rot ≤ 12 →
  ∀ k : Z, 0 ≤ k → k + Z.of_nat n ≤ 1024 →
  ∃ colours,
    run_calls sensors_temperatures (replicate n Next)
      (SpinningRGBSpectrum (spinning_at table k rot))
    = Ok (colours, SpinningRGBSpectrum (spinning_at table (k + Z.of_nat n) rot))
    ∧ Forall2 (hue_of_steps rot) colours (seqZ (k + 1) (Z.of_nat n)).
Proof.
  intros Hrot. induction n as [|n IH]; intros k Hk Hn.
  - exists []. simpl. rewrite Z.add_0_r. split; [reflexivity | constructor].
  - destruct (spin_angle_exact_range (k + 1) rot ltac:(lia) Hrot)
      as (f & Hangle & Hexact).
    destruct (IH (k + 1) ltac:(lia) ltac:(lia)) as (colours & Hrun & Hall).
    exists (compass_to_rgb (Float f) :: colours).
    cbn [replicate run_calls next]. unfold spinning_at at 1.
    unfold SpinningRGBSpectrumLightingEffect.next.
    cbn [SpinningRGBSpectrumLightingEffect.num_iters
         SpinningRGBSpectrumLightingEffect.rotation
         SpinningRGBSpectrumLightingEffect.compass_to_rgb_map].
    rewrite Hangle. cbn [mbind result_bind].
    fold (spinning_at table (k + 1) rot). rewrite Hrun.
    cbn [mbind result_bind].
    replace (k + Z.of_nat (S n)) with (k + 1 + Z.of_nat n) by lia.
    split; [reflexivity|].
    rewrite (seqZ_cons (k + 1)) by lia.
    replace (Z.pred (Z.of_nat (S n))) with (Z.of_nat n) by lia.
    replace (Z.succ (k + 1)) with (k + 1 + 1) by lia.
    constructor; [by exists f | exact Hall].
Qed.

(** X16: the spinning spectrum completes the frame of every device of up to
    1024 LEDs, twelve included: with a rotation in 1..12, LED j (from 1) gets
    the hue of the angle 30*j + 30*rotation, whatever the counter was before
    the frame; the table of the parent class is not consulted. *)
Theorem X16_spinning_frame `{Colours}
    (sensors_temperatures : gmap string (list shwtemp))
    (table : list rgb) (k rot : Z) (n : nat) :
  1 ≤ rot ≤ 12 → (n ≤ 1024)%nat →
  ∃ colours,
    run_calls sensors_temperatures (BeginDev :: replicate n Next)
      (SpinningRGBSpectrum (spinning_at table k rot))
    = Ok (colours, SpinningRGBSpectrum (spinning_at table (Z.of_nat n) rot))
    ∧ Forall2 (hue_of_steps rot) colours (seqZ 1 (Z.of_nat n)).
Proof.
  intros Hrot Hn. cbn [run_calls begin_dev].
  change (SpinningRGBSpectrumLightingEffect.begin_dev (spinning_at table k rot))
    with (spinning_at table 0 rot).
  apply (spinning_nexts sensors_temperatures table rot n Hrot 0); lia.
Qed.

Lemma X16_spinning_frame_witness :
  ∃ colours,
    run_calls (H := black) ∅ (BeginDev :: replicate 12 Next)
      (SpinningRGBSpectrum (spinning_at [] 5 12))
    = Ok (colours, SpinningRGBSpectrum (spinning_at [] (Z.of_nat 12) 12))
    ∧ Forall2 (hue_of_steps (H := black) 12) colours (seqZ 1 (Z.of_nat 12)).
Proof. apply (X16_spinning_frame (H := black) ∅ [] 5 12 12); lia. Defined.

(** ** Alternation across frames *)

Lemma alternating_parity `{Colours} sensors_temperatures calls :
  ∀ a : AlternatingLightingEffect.t,
  snd <$> run_calls sensors_temperatures calls (Alternating a)
  = Ok (Alternating
          (AlternatingLightingEffect.set_odd a
             (xorb (AlternatingLightingEffect.odd a)
                (Nat.odd (count_next calls))))).
Proof.
  induction calls as [|[] calls IH]; intros a.
  - simpl. destruct a as [? ? ? ? ? ? []]; reflexivity.
  - apply IH.
  - apply IH.
  - cbn [run_calls next count_next]. rewrite Nat.odd_succ, <- Nat.negb_odd.
    specialize (IH (AlternatingLightingEffect.next a).2).
    unfold AlternatingLightingEffect.next in *.
    destruct (AlternatingLightingEffect.odd a) eqn:Hodd; simpl in *;
      destruct (run_calls _ calls _) as [[out e']|]; simpl in *;
      try discriminate; injection IH as ->;
      destruct (Nat.odd (count_next calls)); reflexivity.
Qed.

Lemma count_next_replicate (n : nat) : count_next (replicate n Next) = n.
Proof. induction n as [|n IH]; [reflexivity|]. simpl. by rewrite IH. Qed.

(** X17: a frame of n LEDs flips the parity of the alternating effect n
    times and nothing resets it: after the calls of a frame the effect is the
    one before with its flag flipped when n is odd, so the next device, or the
    next round, goes on where this one stopped. *)
Theorem X17_alternation_carries_over `{Colours}
    (sensors_temperatures : gmap string (list shwtemp))
    (a : AlternatingLightingEffect.t) (n : nat) :
  snd <$> run_calls sensors_temperatures (BeginDev :: replicate n Next)
            (Alternating a)
  = Ok (Alternating
          (AlternatingLightingEffect.set_odd a
             (xorb (AlternatingLightingEffect.odd a) (Nat.odd n)))).
Proof.
  rewrite alternating_parity. cbn [count_next].
  by rewrite count_next_replicate.
Qed.

(** ** Rounds of the worker loop *)

Lemma main_settings `{Colours} (self self' : LightingController.t)
    (device : Device) (data : list Z) (msec : Z) :
  LightingController.main self device = Ok (data, msec, self') →
  LightingController.brightness_level self'
  = LightingController.brightness_level self
  ∧ LightingController.update_msec self' = LightingController.update_msec self
  ∧ msec = LightingController.update_msec self.
Proof.
  unfold LightingController.main.
  destruct (LightingController.main_for _ _ []) as [[data0 self0]|err]
    eqn:Hfor; simpl; [|discriminate].
  intros Heq. simplify_eq.
  destruct (main_for_calls ∅ _ _ _ _ _ Hfor)
    as (colours & frames & _ & _ & _ & _ & Hlevel & Hmsec).
  simpl in *. by repeat split.
Qed.

Lemma for_devices_done `{Colours} (devices : list Device) :
  ∀ (m m' : LightingManager.t) (c : LightingController.t)
    (next_poll_msec msec : Z) (sent : list (Device * list Z)),
  LightingManager._controller m = Some c →
  LightingManager.for_devices devices m next_poll_msec
  = (sent, Ok (m', msec)) →
  sent.*1 = devices
  ∧ msec = match devices with
           | [] => next_poll_msec
           | _ :: _ => LightingController.update_msec c
           end
  ∧ LightingManager._devices m' = LightingManager._devices m
  ∧ LightingManager._continue m' = LightingManager._continue m
  ∧ ∃ c', LightingManager._controller m' = Some c'
          ∧ LightingController.brightness_level c'
            = LightingController.brightness_level c
          ∧ LightingController.update_msec c'
            = LightingController.update_msec c.
Proof.
  induction devices as [|dev devices IH]; intros m m' c poll msec sent Hc;
    simpl.
  - intros Heq. simplify_eq. repeat split; try reflexivity. by exists c.
  - unfold LightingManager.the_controller. rewrite Hc. simpl.
    destruct (LightingController.main c dev) as [[[data ms] c1]|err]
      eqn:Hmain; [|discriminate].
    destruct (main_settings _ _ _ _ _ Hmain) as (Hlevel & Hmsec & Hms).
    specialize (IH (LightingManager.with_controller m (Some c1)) m' c1 ms).
    destruct (LightingManager.for_devices devices _ ms) as [sent0 r].
    intros Heq. simplify_eq.
    destruct (IH msec sent0 eq_refl eq_refl)
      as (Horder & Hinterval & Hdevices & Hflag & c' & Hc' & Hlevel' & Hmsec').
    split; [by rewrite fmap_cons, Horder|].
    split; [destruct devices; congruence|].
    split; [exact Hdevices|]. split; [exact Hflag|].
    exists c'. split; [exact Hc'|]. split; congruence.
Qed.

Lemma _main_loop_body_done `{Colours} sensors_temperatures
    (m m' : LightingManager.t) (c : LightingController.t)
    (next_poll_msec msec : Z) (sent : list (Device * list Z)) :
  LightingManager._controller m = Some c →
  LightingManager._main_loop_body sensors_temperatures m next_poll_msec
  = (sent, Ok (m', msec)) →
  sent.*1 = LightingManager._devices m
  ∧ msec = match LightingManager._devices m with
           | [] => next_poll_msec
           | _ :: _ => LightingController.update_msec c
           end
  ∧ LightingManager._devices m' = LightingManager._devices m
  ∧ LightingManager._continue m' = LightingManager._continue m
  ∧ ∃ c', LightingManager._controller m' = Some c'
          ∧ LightingController.brightness_level c'
            = LightingController.brightness_level c
          ∧ LightingController.update_msec c'
            = LightingController.update_msec c.
Proof.
  intros Hc. unfold LightingManager._main_loop_body,
    LightingManager.the_controller. rewrite Hc. simpl.
  destruct (begin_all sensors_temperatures _) as [e|err]; simpl;
    [|discriminate].
  intros Hfor.
  apply (for_devices_done _ _ _ (LightingController.set_lighting_effect c e))
    in Hfor; [exact Hfor | reflexivity].
Qed.

Lemma for_devices_raise `{Colours} (devices : list Device) :
  ∀ (m : LightingManager.t) (next_poll_msec : Z)
    (sent : list (Device * list Z)) (err : exn),
  LightingManager.for_devices devices m next_poll_msec = (sent, Raise err) →
  ∃ served dev rest m1 msec1,
    devices = served ++ dev :: rest
    ∧ sent.*1 = served
    ∧ LightingManager.for_devices served m next_poll_msec
      = (sent, Ok (m1, msec1))
    ∧ (c1 ← LightingManager.the_controller m1; LightingController.main c1 dev)
      = Raise err.
Proof.
  induction devices as [|dev devices IH]; intros m poll sent err; simpl.
  - discriminate.
  - destruct (LightingManager.the_controller m ≫= _)
      as [[[data msec] c']|err0] eqn:Hmain.
    + specialize (IH (LightingManager.with_controller m (Some c')) msec).
      destruct (LightingManager.for_devices devices _ msec) as [sent0 r] eqn:Hfor.
      intros [= <- ->].
      destruct (IH sent0 err eq_refl)
        as (served & dev1 & rest & m1 & msec1 & -> & Hsent & Hserved & Hfail).
      exists (dev :: served), dev1, rest, m1, msec1.
      split; [reflexivity|]. split; [by rewrite fmap_cons, Hsent|].
      split; [|exact Hfail].
      simpl. rewrite Hmain, Hserved. reflexivity.
    + intros [= <- <-]. exists [], dev, devices, m, poll.
      by repeat split.
Qed.

(** X18: in a round the frames are handed to the devices in the order in
    which they were attached, one frame per device.  When the round fails, it
    has either failed before the first device (there is no controller, or
    [begin_all] raised) and no device has received a frame, or the frame of
    one device raised: then exactly the devices attached before that one have
    received their frames, the same frames as in a round over those devices
    alone, and the failing device and the ones after it have received
    nothing. *)
Theorem X18_round_order `{Colours}
    (sensors_temperatures : gmap string (list shwtemp))
    (m : LightingManager.t) (next_poll_msec : Z)
    (sent : list (Device * list Z))
    (outcome : result (LightingManager.t * Z)) :
  LightingManager._main_loop_body sensors_temperatures m next_poll_msec
  = (sent, outcome) →
  match outcome with
  | Ok _ => sent.*1 = LightingManager._devices m
  | Raise err =>
      (sent = []
       ∧ (c ← LightingManager.the_controller m;
          begin_all sensors_temperatures (LightingController.lighting_effect c))
         = Raise err)
      ∨ ∃ c e served dev rest m1 msec1,
          LightingManager._controller m = Some c
          ∧ begin_all sensors_temperatures
              (LightingController.lighting_effect c) = Ok e
          ∧ LightingManager._devices m = served ++ dev :: rest
          ∧ sent.*1 = served
          ∧ LightingManager.for_devices served
              (LightingManager.with_controller m
                 (Some (LightingController.set_lighting_effect c e)))
              next_poll_msec
            = (sent, Ok (m1, msec1))
          ∧ (c1 ← LightingManager.the_controller m1;
             LightingController.main c1 dev) = Raise err
  end.
Proof.
  intros Hbody. destruct outcome as [[m' msec]|err].
  - destruct (LightingManager._controller m) as [c|] eqn:Hc.
    + by destruct (_main_loop_body_done _ _ _ _ _ _ _ Hc Hbody) as [-> _].
    + unfold LightingManager._main_loop_body,
        LightingManager.the_controller in Hbody.
      rewrite Hc in Hbody. discriminate.
  - unfold LightingManager._main_loop_body,
      LightingManager.the_controller in *.
    destruct (LightingManager._controller m) as [c|] eqn:Hc; simpl in *;
      [|left; by simplify_eq].
    destruct (begin_all sensors_temperatures _) as [e|err0] eqn:Hbegin;
      simpl in *; [|left; by simplify_eq].
    right.
    destruct (for_devices_raise _ _ _ _ _ Hbody)
      as (served & dev & rest & m1 & msec1 & Hdevs & Hsent & Hserved & Hfail).
    exists c, e, served, dev, rest, m1, msec1.
    split; [reflexivity|]. split; [exact Hbegin|]. split; [exact Hdevs|].
    split; [exact Hsent|]. split; [exact Hserved | exact Hfail].
Qed.

Lemma X18_round_order_witness :
  LightingManager._main_loop_body (H := black) ∅
    (configured (LightingController.init (RGBSpectrum (spectrum_at (H := black) 0)))
       [{| num_leds := 1 |}; {| num_leds := 12 |}; {| num_leds := 2 |}]) 1
  = ([({| num_leds := 1 |}, [0; 0; 0])], Raise IndexError)
  ∧ (([({| num_leds := 1 |}, [0; 0; 0])] : list (Device * list Z)) = []
     ∧ (c ← LightingManager.the_controller
              (configured
                 (LightingController.init
                    (RGBSpectrum (spectrum_at (H := black) 0)))
                 [{| num_leds := 1 |}; {| num_leds := 12 |};
                  {| num_leds := 2 |}]);
        begin_all ∅ (LightingController.lighting_effect c))
       = Raise IndexError
     ∨ ∃ c e served dev rest m1 msec1,
         LightingManager._controller
           (configured
              (LightingController.init
                 (RGBSpectrum (spectrum_at (H := black) 0)))
              [{| num_leds := 1 |}; {| num_leds := 12 |};
               {| num_leds := 2 |}]) = Some c
         ∧ begin_all ∅ (LightingController.lighting_effect c) = Ok e
         ∧ LightingManager._devices
             (configured
                (LightingController.init
                   (RGBSpectrum (spectrum_at (H := black) 0)))
                [{| num_leds := 1 |}; {| num_leds := 12 |};
                 {| num_leds := 2 |}]) = served ++ dev :: rest
         ∧ [({| num_leds := 1 |}, [0; 0; 0])].*1 = served
         ∧ LightingManager.for_devices (H := black) served
             (LightingManager.with_controller
                (configured
                   (LightingController.init
                      (RGBSpectrum (spectrum_at (H := black) 0)))
                   [{| num_leds := 1 |}; {| num_leds := 12 |};
                    {| num_leds := 2 |}])
                (Some (LightingController.set_lighting_effect c e))) 1
           = ([({| num_leds := 1 |}, [0; 0; 0])], Ok (m1, msec1))
         ∧ (c1 ← LightingManager.the_controller m1;
            LightingController.main (H := black) c1 dev) = Raise IndexError).
Proof.
  assert (Hbody :
    LightingManager._main_loop_body (H := black) ∅
      (configured
         (LightingController.init (RGBSpectrum (spectrum_at (H := black) 0)))
         [{| num_leds := 1 |}; {| num_leds := 12 |}; {| num_leds := 2 |}]) 1
    = ([({| num_leds := 1 |}, [0; 0; 0])], Raise IndexError)).
  { vm_compute. reflexivity. }
  split; [exact Hbody|].
  exact (X18_round_order (H := black) ∅ _ 1 _ _ Hbody).
Defined.

(** X19: the interval a round returns, the one the loop then sleeps for, is
    the controller's [update_msec] as soon as one device is attached; with no
    device attached it is the interval passed in, which is 1 ms when the loop
    starts. *)
Theorem X19_round_interval `{Colours}
    (sensors_temperatures : gmap string (list shwtemp))
    (m m' : LightingManager.t) (c : LightingController.t)
    (next_poll_msec msec : Z) (sent : list (Device * list Z)) :
  LightingManager._controller m = Some c →
  LightingManager._main_loop_body sensors_temperatures m next_poll_msec
  = (sent, Ok (m', msec)) →
  msec = match LightingManager._devices m with
         | [] => next_poll_msec
         | _ :: _ => LightingController.update_msec c
         end.
Proof.
  intros Hc Hbody.
  by destruct (_main_loop_body_done _ _ _ _ _ _ _ Hc Hbody) as (_ & -> & _).
Qed.

Lemma X19_round_interval_witness :
  100 = match LightingManager._devices grey_manager with
        | [] => 1
        | _ :: _ =>
            LightingController.update_msec
              (LightingController.init
                 (Static (StaticLightingEffect.init 100 100 100)))
        end.
Proof.
  eapply (X19_round_interval (H := black) ∅ grey_manager _
            (LightingController.init
               (Static (StaticLightingEffect.init 100 100 100))) 1 100);
    [reflexivity | vm_compute; reflexivity].
Defined.

(** X20: a round that completes changes neither the list of devices nor the
    running flag nor the brightness and the interval of the controller; only
    the state of the effect moves on. *)
Theorem X20_round_keeps_settings `{Colours}
    (sensors_temperatures : gmap string (list shwtemp))
    (m m' : LightingManager.t) (c : LightingController.t)
    (next_poll_msec msec : Z) (sent : list (Device * list Z)) :
  LightingManager._controller m = Some c →
  LightingManager._main_loop_body sensors_temperatures m next_poll_msec
  = (sent, Ok (m', msec)) →
  LightingManager._devices m' = LightingManager._devices m
  ∧ LightingManager._continue m' = LightingManager._continue m
  ∧ ∃ c', LightingManager._controller m' = Some c'
          ∧ LightingController.brightness_level c'
            = LightingController.brightness_level c
          ∧ LightingController.update_msec c'
            = LightingController.update_msec c.
Proof.
  intros Hc Hbody.
  by destruct (_main_loop_body_done _ _ _ _ _ _ _ Hc Hbody) as (_ & _ & ?).
Qed.

Lemma X20_round_keeps_settings_witness :
  ∃ m', LightingManager._devices m' = LightingManager._devices grey_manager
        ∧ LightingManager._continue m' = LightingManager._continue grey_manager
        ∧ ∃ c', LightingManager._controller m' = Some c'
                ∧ LightingController.brightness_level c' = 100
                ∧ LightingController.update_msec c' = 100.
Proof.
  eexists.
  eapply (X20_round_keeps_settings (H := black) ∅ grey_manager _
            (LightingController.init
               (Static (StaticLightingEffect.init 100 100 100))) 1 100);
    [reflexivity | vm_compute; reflexivity].
Defined.

Lemma main_steady `{Colours} (b : Z) (self : LightingController.t)
    (device : Device) :
  hue_colours → 0 ≤ b ≤ 300 → ctrl_ok b self →
  steady (LightingController.lighting_effect self) →
  ∃ data self',
    LightingController.main self device
    = Ok (data, LightingController.update_msec self, self')
    ∧ ctrl_ok b self'
    ∧ steady (LightingController.lighting_effect self')
    ∧ frame_for b (device, data) device.
Proof.
  intros Hhue Hb Hok Hsteady.
  pose proof (main_sink _ Hhue Hb self device Hok) as Hsink.
  unfold LightingController.main in *.
  destruct (main_for_steady b (Z.to_nat (num_leds device)) Hhue Hb
              (LightingController.set_lighting_effect self
                 (begin_dev (LightingController.lighting_effect self))) [])
    as (data & self' & Hfor & Hsteady').
  - destruct Hok as [Hlevel Hcol]. split; [exact Hlevel|].
    simpl. by apply begin_dev_colours.
  - simpl. by destruct (LightingController.lighting_effect self).
  - rewrite Hfor in *. simpl in *.
    destruct Hsink as (Hdata & Hok' & Hmsec & Hlen).
    exists data, self'. rewrite Hmsec.
    split; [reflexivity|]. split; [exact Hok'|]. split; [exact Hsteady'|].
    split; [reflexivity|]. split; [exact Hlen | exact Hdata].
Qed.

Lemma for_devices_steady `{Colours} (b : Z) (devices : list Device) :
  hue_colours → 0 ≤ b ≤ 300 →
  ∀ (m : LightingManager.t) (c : LightingController.t) (next_poll_msec : Z),
  LightingManager._controller m = Some c → ctrl_ok b c →
  steady (LightingController.lighting_effect c) →
  ∃ sent m' msec,
    LightingManager.for_devices devices m next_poll_msec
    = (sent, Ok (m', msec))
    ∧ Forall2 (frame_for b) sent devices.
Proof.
  intros Hhue Hb.
  induction devices as [|dev devices IH]; intros m c poll Hc Hok Hsteady;
    simpl.
  - by exists [], m, poll.
  - unfold LightingManager.the_controller. rewrite Hc. simpl.
    destruct (main_steady b c dev Hhue Hb Hok Hsteady)
      as (data & c' & -> & Hok' & Hsteady' & Hframe).
    destruct (IH (LightingManager.with_controller m (Some c')) c'
                (LightingController.update_msec c) eq_refl Hok' Hsteady')
      as (sent & m' & msec & -> & Hall).
    exists ((dev, data) :: sent), m', msec. split; [reflexivity|].
    by constructor.
Qed.

(** X21: with a static, alternating or temperature effect holding 8-bit
    colours, a brightness in [0, 300] and a [begin_all] that succeeds, a round
    always completes: every attached device is handed exactly one frame, in
    order, of 3 values per LED, each a value the brightness allows. *)
Theorem X21_round_completes `{Colours}
    (sensors_temperatures : gmap string (list shwtemp))
    (m : LightingManager.t) (c : LightingController.t) (e' : LightingEffect)
    (next_poll_msec : Z) :
  hue_colours →
  LightingManager._controller m = Some c →
  0 ≤ LightingController.brightness_level c ≤ 300 →
  effect_colours (LightingController.lighting_effect c) →
  steady (LightingController.lighting_effect c) →
  begin_all sensors_temperatures (LightingController.lighting_effect c)
  = Ok e' →
  ∃ sent m' msec,
    LightingManager._main_loop_body sensors_temperatures m next_poll_msec
    = (sent, Ok (m', msec))
    ∧ Forall2 (frame_for (LightingController.brightness_level c)) sent
        (LightingManager._devices m).
Proof.
  intros Hhue Hc Hb Hcol Hsteady Hbegin.
  unfold LightingManager._main_loop_body, LightingManager.the_controller.
  rewrite Hc. simpl. rewrite Hbegin. simpl.
  apply (for_devices_steady _ _ Hhue Hb _
           (LightingController.set_lighting_effect c e')); [reflexivity | |].
  - split; [reflexivity|]. simpl. by eapply begin_all_colours.
  - simpl. destruct (LightingController.lighting_effect c) as [s|a|s|s|t];
      simpl in *; try contradiction; try (by simplify_eq).
    destruct (TemperatureLightingEffect.begin_all _ t); simpl in *;
      by simplify_eq.
Qed.

Lemma X21_round_completes_witness :
  ∃ sent m' msec,
    LightingManager._main_loop_body (H := black) ∅ grey_manager 1
    = (sent, Ok (m', msec))
    ∧ Forall2 (frame_for 100) sent (LightingManager._devices grey_manager).
Proof.
  apply (X21_round_completes (H := black) ∅ grey_manager
           (LightingController.init
              (Static (StaticLightingEffect.init 100 100 100)))
           (Static (StaticLightingEffect.init 100 100 100)) 1).
  - intros a. unfold colour, channel. simpl. lia.
  - reflexivity.
  - simpl. lia.
  - unfold effect_colours, colour, channel. simpl. lia.
  - exact I.
  - reflexivity.
Defined.

(** ** Configuring the manager *)

(** X22: the two setters are independent and the last call wins: a second
    brightness replaces the first, a second positive interval replaces the
    first, and setting the brightness and then the interval gives the same
    manager as setting them the other way round. *)
Theorem X22_setters_compose (m : LightingManager.t)
    (c : LightingController.t) (b1 b2 s1 s2 : Z) :
  let mc := LightingManager.with_controller m (Some c) in
  (LightingManager.set_brightness mc b1
   ≫= λ m', LightingManager.set_brightness m' b2)
  = LightingManager.set_brightness mc b2
  ∧ (0 < s2 →
     (LightingManager.set_light_update_msec mc s1
      ≫= λ m', LightingManager.set_light_update_msec m' s2)
     = LightingManager.set_light_update_msec mc s2)
  ∧ (LightingManager.set_brightness mc b1
     ≫= λ m', LightingManager.set_light_update_msec m' s1)
    = (LightingManager.set_light_update_msec mc s1
       ≫= λ m', LightingManager.set_brightness m' b1).
Proof.
  intros mc. subst mc. split; [|split].
  - rewrite !set_brightness_clamps. simpl.
    by rewrite (set_brightness_clamps m).
  - intros Hs2. rewrite !set_light_update_msec_positive. simpl.
    rewrite (set_light_update_msec_positive m).
    destruct (Z.ltb_spec 0 s2); [|lia]. by destruct (0 <? s1).
  - rewrite set_brightness_clamps, set_light_update_msec_positive. simpl.
    rewrite (set_light_update_msec_positive m), (set_brightness_clamps m).
    by destruct (0 <? s1).
Qed.

Lemma call_config_idle (m m' : LightingManager.t) (op : config) :
  call_config m op = Ok m' →
  LightingManager._continue m' = LightingManager._continue m.
Proof.
  destruct op as [device|[c|]|[brightness|sec]]; simpl.
  - by intros [= <-].
  - by intros [= <-].
  - by intros [= <-].
  - unfold LightingManager.set_brightness.
    destruct (int _); simpl; [|discriminate].
    destruct (LightingManager.the_controller m); simpl; [|discriminate].
    by intros [= <-].
  - unfold LightingManager.set_light_update_msec.
    destruct (gt sec (Int 0)); [|by intros [= <-]].
    destruct (int sec); simpl; [|discriminate].
    destruct (LightingManager.the_controller m); simpl; [|discriminate].
    by intros [= <-].
Qed.

Lemma run_config_idle (ops : list config) :
  ∀ m m' : LightingManager.t,
  run_config ops m = Ok m' →
  LightingManager._continue m' = LightingManager._continue m.
Proof.
  induction ops as [|op ops IH]; intros m m'; simpl.
  - by intros [= <-].
  - destruct (call_config m op) as [m1|] eqn:Hop; simpl; [|discriminate].
    intros Hrun. rewrite (IH _ _ Hrun). by eapply call_config_idle.
Qed.

(** X23: no frame is handed to a device before [start]: attaching devices,
    replacing the controller and calling the setters leave a new manager
    stopped, and the loop of a stopped manager, also one stopped again by
    [stop], does nothing at all. *)
Theorem X23_idle_until_started `{Colours}
    (rounds : list (gmap string (list shwtemp)))
    (initial_controller : option LightingController.t)
    (ops : list config) (m : LightingManager.t) :
  run_config ops (LightingManager.init initial_controller) = Ok m →
  LightingManager._main_loop rounds m = ([], Ok (m, 1))
  ∧ LightingManager._main_loop rounds
      (LightingManager.stop (LightingManager.start m))
    = ([], Ok (LightingManager.stop (LightingManager.start m), 1)).
Proof.
  intros Hrun. pose proof (run_config_idle _ _ _ Hrun) as Hidle.
  simpl in Hidle. unfold LightingManager._main_loop.
  split; destruct rounds as [|sensors_temperatures rounds]; simpl;
    try reflexivity.
  by rewrite Hidle.
Qed.

Lemma X23_idle_until_started_witness :
  ∃ m, run_config
         [AttachDevice {| num_leds := 12 |}; CallSetter (SetBrightness 50)]
         (LightingManager.init
            (Some (LightingController.init
                     (Static (StaticLightingEffect.init 1 2 3))))) = Ok m
       ∧ LightingManager._main_loop (H := black) [∅; ∅] m = ([], Ok (m, 1)).
Proof.
  eexists. split; [reflexivity|].
  exact (proj1 (X23_idle_until_started (H := black) [∅; ∅]
                  (Some (LightingController.init
                           (Static (StaticLightingEffect.init 1 2 3))))
                  [AttachDevice {| num_leds := 12 |};
                   CallSetter (SetBrightness 50)] _ eq_refl)).
Defined.

(** X24: attaching devices only appends: after attaching the devices [ds]
    one after the other, the list is the old one followed by [ds], in order
    and with repetitions kept, and the controller and the running flag are
    untouched. *)
Theorem X24_attach_appends (m : LightingManager.t) (ds : list Device) :
  LightingManager._devices (foldl LightingManager.attach_device m ds)
  = LightingManager._devices m ++ ds
  ∧ LightingManager._controller (foldl LightingManager.attach_device m ds)
    = LightingManager._controller m
  ∧ LightingManager._continue (foldl LightingManager.attach_device m ds)
    = LightingManager._continue m.
Proof.
  revert m. induction ds as [|d ds IH]; intros m; simpl.
  - by rewrite app_nil_r.
  - destruct (IH (LightingManager.attach_device m d)) as (-> & -> & ->).
    simpl. by rewrite <- app_assoc.
Qed.

(** ** What the factory builds *)

(** X25: every controller the factory returns has the default settings,
    brightness 100 and interval 100 ms, whatever the kind of the effect and
    whatever the values of its parameters, also values that are not of the
    annotated types. *)
Theorem X25_factory_defaults `{Colours} (args : list val)
    (kwargs : gmap string val) (c : Stored.LightingController) :
  Stored.lighting_controller_factory args kwargs = Ok (Some c) →
  Stored.brightness_level c = 100 ∧ Stored.update_msec c = 100.
Proof.
  unfold Stored.lighting_controller_factory.
  destruct (pop_type args kwargs) as [[[_type args'] kwargs']|]; simpl;
    [|discriminate].
  destruct (Stored.new_effect _type args' kwargs') as [[e|]|]; simpl;
    try discriminate.
  by intros [= <-].
Qed.

Lemma X25_factory_defaults_witness :
  Stored.brightness_level
    (Stored.init (Stored.Static (Str "red") None_ (Num (Float 0.5)))) = 100
  ∧ Stored.update_msec
      (Stored.init (Stored.Static (Str "red") None_ (Num (Float 0.5)))) = 100.
Proof.
  apply (X25_factory_defaults (H := black)
           [Str "static"; Str "red"; None_; Num (Float 0.5)] ∅).
  reflexivity.
Defined.

(** X26: the static effect is built from its three channel values whether
    they are given by position, by keyword with the identifier as the keyword
    [type], or partly by position and partly by keyword: the three calls
    return the same controller. *)
Theorem X26_factory_static_keywords `{Colours} (r g b : Z) :
  let built := Ok (Some (LightingController.init
                           (Static (StaticLightingEffect.init r g b)))) in
  lighting_controller_factory
    [Str "static"; Num (Int r); Num (Int g); Num (Int b)] ∅ = built
  ∧ lighting_controller_factory []
      {[ "type" := Str "static"; "r" := Num (Int r); "g" := Num (Int g);
         "b" := Num (Int b) ]} = built
  ∧ lighting_controller_factory [Str "static"; Num (Int r)]
      {[ "g" := Num (Int g); "b" := Num (Int b) ]} = built.
Proof. repeat split; vm_compute; reflexivity. Qed.

(** X27: a temperature effect built with a sensor name alone has the
    thresholds hot 60, target 30 and cold 20 and the angles 240, 120 and 0; a
    threshold given by keyword replaces its default; and until the first
    round the effect shows the hue of the angle 0. *)
Theorem X27_factory_temperature_defaults `{Colours} (name : string)
    (cold : Z) :
  lighting_controller_factory [Str "temperature"; Str name] ∅
  = Ok (Some (LightingController.init
                (Temperature (TemperatureLightingEffect.init name 60 30 20))))
  ∧ lighting_controller_factory []
      {[ "type" := Str "temperature"; "sensor_name" := Str name;
         "cold" := Num (Int cold) ]}
    = Ok (Some (LightingController.init
                  (Temperature
                     (TemperatureLightingEffect.init name 60 30 cold))))
  ∧ next (Temperature (TemperatureLightingEffect.init name 60 30 cold))
    = Ok (compass_to_rgb (Int 0),
          Temperature (TemperatureLightingEffect.init name 60 30 cold))
  ∧ TemperatureLightingEffect.cold_angle
      (TemperatureLightingEffect.init name 60 30 cold) = 240
  ∧ TemperatureLightingEffect.target_angle
      (TemperatureLightingEffect.init name 60 30 cold) = 120
  ∧ TemperatureLightingEffect.hot_angle
      (TemperatureLightingEffect.init name 60 30 cold) = 0.
Proof. repeat split; vm_compute; reflexivity. Qed.

(** X28: brightness and interval belong to the controller, not to the
    manager: replacing the controller discards what the setters stored in the
    old one, so the manager then runs with the settings of the new controller;
    an argument that is not a controller changes nothing. *)
Theorem X28_set_controller_replaces_settings (m : LightingManager.t)
    (c c' : LightingController.t) (brightness sec : Z) :
  (m1 ← LightingManager.set_brightness
          (LightingManager.with_controller m (Some c)) brightness;
   m2 ← LightingManager.set_light_update_msec m1 sec;
   Ok (LightingManager.set_controller m2 (Some c')))
  = Ok (LightingManager.with_controller m (Some c'))
  ∧ LightingManager.set_controller m None = m
  ∧ LightingManager._devices (LightingManager.set_controller m (Some c'))
    = LightingManager._devices m
  ∧ LightingManager._continue (LightingManager.set_controller m (Some c'))
    = LightingManager._continue m.
Proof.
  split; [|by repeat split].
  rewrite set_brightness_clamps. simpl.
  rewrite (set_light_update_msec_positive m). reflexivity.
Qed.
